(** * code_explainer: a shallow embedding of [explain_lines.py]

    The development follows the source file function by function:
    - [PyStr]     the [str] operations the program calls, over code points;
    - [Py]        exceptions, outcomes of calls, floats and [io.StringIO];
    - [Executor]  [run_with_trace] with its two stubs, over an explicit
                  process state;
    - [Merger]    the merge loop of [explain_file];
    - [Renderer]  [call_local_llm] and [explain_with_llm];
    - [Spec]      the notions the statements are written in;
    - [Demo]      a small module and two backends to run the definitions on;
    - [Facts]     [ast_facts] over the parsed tree;
    - [Json]      [json.dumps] of a record, as [build_user_prompt] calls it;
    - [Sample]    small sources and entry routines for the examples;
    - [Notions]   further notions for the statements.

    Python values are modelled as the program has them: [int] is [Z], [str]
    is a list of code points, [float] is a binary64 primitive float, a [dict]
    used for lookups only is a [gmap], a [dict] whose iteration order matters
    is an association list. *)

From Stdlib Require Import Floats.
From Stdlib Require Import ZArith NArith List String Ascii Bool Lia.
From Stdlib Require Import Sorting.Sorted.
From stdpp Require Import base option list gmap pretty.

Local Open Scope Z_scope.

(** ** Python strings *)

Module PyStr.

(** A [str] is a sequence of Unicode code points. *)
Abbreviation pystr := (list N).

(** An ASCII literal of the source, as a [str]. *)
Definition lit (s : string) : pystr :=
  List.map N_of_ascii (list_ascii_of_string s).
Arguments lit s%_string.

Definition in_range (lo hi c : N) : bool := ((lo <=? c) && (c <=? hi))%N.

(** [str.isspace] on one code point: the characters [str.strip()] and
    [str.rstrip()] remove. *)
Definition is_space (c : N) : bool :=
  in_range 9 13 c || in_range 28 32 c || (c =? 133)%N || (c =? 160)%N
  || (c =? 5760)%N || in_range 8192 8202 c || (c =? 8232)%N
  || (c =? 8233)%N || (c =? 8239)%N || (c =? 8287)%N || (c =? 12288)%N.

(** The line boundaries [str.splitlines] recognises. *)
Definition is_linebreak (c : N) : bool :=
  in_range 10 13 c || in_range 28 30 c || (c =? 133)%N
  || (c =? 8232)%N || (c =? 8233)%N.

Fixpoint lstrip_by (p : N -> bool) (s : pystr) : pystr :=
  match s with
  | [] => []
  | c :: s' => if p c then lstrip_by p s' else s
  end.

Definition rstrip_by (p : N -> bool) (s : pystr) : pystr :=
  rev (lstrip_by p (rev s)).

(** [s.strip()], [s.rstrip()] and [s.rstrip(chars)]. *)
Definition strip (s : pystr) : pystr := rstrip_by is_space (lstrip_by is_space s).
Definition rstrip (s : pystr) : pystr := rstrip_by is_space s.
Definition mem_char (chars : pystr) (c : N) : bool :=
  existsb (fun d => (d =? c)%N) chars.
Definition rstrip_chars (chars s : pystr) : pystr := rstrip_by (mem_char chars) s.

(** [s.splitlines()]: [cur] holds the current line, last character first.
    A carriage return followed by a line feed is one boundary; no empty line
    is produced after a final boundary. *)
Fixpoint splitlines_from (cur : pystr) (s : pystr) : list pystr :=
  match s with
  | [] => match cur with [] => [] | _ => [rev cur] end
  | c :: s' =>
      if is_linebreak c then
        rev cur ::
          match s' with
          | d :: s'' =>
              if ((c =? 13) && (d =? 10))%N then splitlines_from [] s''
              else splitlines_from [] s'
          | [] => []
          end
      else splitlines_from (c :: cur) s'
  end.

Definition splitlines (s : pystr) : list pystr := splitlines_from [] s.

(** [s.startswith(p)] and [s.endswith(p)]. *)
Fixpoint startswith (s p : pystr) : bool :=
  match p, s with
  | [], _ => true
  | _ :: _, [] => false
  | a :: p', b :: s' => (a =? b)%N && startswith s' p'
  end.

Definition endswith (s p : pystr) : bool := startswith (rev s) (rev p).

(** [s.find(sub)]: the lowest index at which [sub] occurs, or -1. *)
Fixpoint find_from (i : Z) (s sub : pystr) : Z :=
  if startswith s sub then i
  else match s with
       | [] => -1
       | _ :: s' => find_from (i + 1) s' sub
       end.
Definition find (s sub : pystr) : Z := find_from 0 s sub.

(** [s.rfind(sub)]: the highest index at which [sub] occurs, or -1. *)
Fixpoint rfind_from (i : Z) (s sub : pystr) : Z :=
  match s with
  | [] => if startswith s sub then i else -1
  | _ :: s' =>
      let r := rfind_from (i + 1) s' sub in
      if r =? -1 then (if startswith s sub then i else -1) else r
  end.
Definition rfind (s sub : pystr) : Z := rfind_from 0 s sub.

(** [sub in s]. *)
Definition contains (s sub : pystr) : bool := negb (find s sub =? -1).

(** [s[start:stop]] for integer bounds: a negative bound counts from the
    end, and both are clamped to the string. *)
Definition clamp_index (len i : Z) : Z :=
  if i <? 0 then Z.max 0 (i + len) else Z.min i len.

Definition slice (s : pystr) (start stop : Z) : pystr :=
  let len := Z.of_nat (length s) in
  let a := clamp_index len start in
  let b := clamp_index len stop in
  take (Z.to_nat (b - a)) (drop (Z.to_nat a) s).

(** [sep.join(parts)]. *)
Fixpoint join (sep : pystr) (parts : list pystr) : pystr :=
  match parts with
  | [] => []
  | [p] => p
  | p :: rest => p ++ sep ++ join sep rest
  end.

(** [str(n)] for an [int]. *)
Definition str_of_int (n : Z) : pystr := lit (pretty n).

(** The truth value of a [str] or a [list]: empty is false. *)
Definition truthy {A} (l : list A) : bool :=
  match l with [] => false | _ => true end.

End PyStr.
Import PyStr.

(** ** Python values, exceptions and floats *)

Module Py.

(** The exceptions the program raises or lets through. *)
Inductive pyexn :=
| AttributeError
| TypeError
| ValueError
| OverflowError
| EOFError
| UnicodeError
| JSONDecodeError
| RuntimeError (msg : pystr)
| SystemExit (msg : pystr)
| OtherError (tag : pystr).

(** What a call does: it returns a value or raises. *)
Inductive outcome (A : Type) :=
| Returns (a : A)
| Raises (e : pyexn).
Arguments Returns {A} a.
Arguments Raises {A} e.

Abbreviation float := PrimFloat.float.

(** The two-argument [min(a, b)]: [b] replaces [a] only when [b < a]. *)
Definition py_min (a b : float) : float :=
  if PrimFloat.ltb b a then b else a.

(** The literal [0.01] of line 96, as the binary64 value it denotes. *)
Definition ten_ms : float := 0x1.47ae147ae147bp-7%float.

(** The simple values passed as arguments. *)
Inductive pyarg :=
| ANone
| ABool (b : bool)
| AInt (n : Z)
| AFloat (x : float)
| AStr (s : pystr).

(** [float(n)] for an [int]: the nearest binary64 value, [OverflowError]
    when there is none. *)
Definition float_of_int (n : Z) : outcome float :=
  let x := FloatOps.SF2Prim
             (SpecFloat.binary_normalize FloatOps.prec FloatOps.emax n 0 false) in
  if PrimFloat.is_infinity x then Raises OverflowError else Returns x.

(** [float(s)]; [float_of_str] is the interpreter's parser of float
    literals, [None] where it rejects the text. *)
Definition py_float (float_of_str : pystr -> option float) (s : pyarg)
    : outcome float :=
  match s with
  | ANone => Raises TypeError
  | ABool b => Returns (if b then 1%float else 0%float)
  | AInt n => float_of_int n
  | AFloat x => Returns x
  | AStr t => match float_of_str t with
              | Some x => Returns x
              | None => Raises ValueError
              end
  end.

(** [io.StringIO]: the text and the read/write position. *)
Record StringIO := mk_StringIO {
  buffer : pystr;
  pos : nat;
}.

Definition StringIO_new (initial : pystr) : StringIO :=
  {| buffer := initial; pos := 0 |}.

(** The characters up to and including the first line feed. *)
Fixpoint upto_newline (s : pystr) : pystr :=
  match s with
  | [] => []
  | c :: s' => if (c =? 10)%N then [c] else c :: upto_newline s'
  end.

Definition readline (f : StringIO) : pystr * StringIO :=
  let line := upto_newline (drop (pos f) (buffer f)) in
  (line, {| buffer := buffer f; pos := (pos f + length line)%nat |}).

Definition write (f : StringIO) (text : pystr) : StringIO :=
  {| buffer := take (pos f) (buffer f) ++ text
               ++ drop (pos f + length text)%nat (buffer f);
     pos := (pos f + length text)%nat |}.

Definition getvalue (f : StringIO) : pystr := buffer f.

End Py.
Import Py.

(** ** [run_with_trace] *)

Module Executor.

(** The objects that can be bound to [builtins.input] and [time.sleep]:
    the interpreter's own, the two closures of [run_with_trace], and any
    other callable, known by an identity. *)
Inductive input_obj :=
| builtin_input
| stub_input_obj
| other_input (id : N).

Inductive sleep_obj :=
| builtin_sleep
| fast_sleep_obj (original_sleep : sleep_obj)
| other_sleep (id : N).

(** The process-wide state the function touches. [slept] lists the
    arguments the interpreter's own [time.sleep] was called with. *)
Record process := mk_process {
  builtins_input : input_obj;
  time_sleep : sleep_obj;
  slept : list pyarg;
}.

Definition set_input (f : input_obj) (p : process) : process :=
  {| builtins_input := f; time_sleep := time_sleep p; slept := slept p |}.
Definition set_sleep (f : sleep_obj) (p : process) : process :=
  {| builtins_input := builtins_input p; time_sleep := f; slept := slept p |}.

(** The code of an entry routine, as the events [run_with_trace] can
    observe: line events of the tracer, calls of [input] and [time.sleep]
    through their global names ([Input], [Sleep]), calls of an object that
    was bound to one of the names and that the routine holds a reference to
    ([Input_via], [Sleep_via]: a module that says [from time import sleep]
    calls the interpreter's own function whatever [time.sleep] is bound
    to), writes to the standard streams, and rebinding of the two global
    names. A call hands its outcome to the rest of the routine, which may
    handle an exception or raise it again. *)
Inductive prog :=
| Return
| Raise (e : pyexn)
| Line (filename : pystr) (lineno : Z) (k : prog)
| Input (prompt : option pystr) (k : outcome pystr -> prog)
| Sleep (s : pyarg) (k : outcome unit -> prog)
| Input_via (f : input_obj) (prompt : option pystr) (k : outcome pystr -> prog)
| Sleep_via (f : sleep_obj) (s : pyarg) (k : outcome unit -> prog)
| Write_text (text : pystr) (k : prog)
| Rebind_input (f : input_obj) (k : prog)
| Rebind_sleep (f : sleep_obj) (k : prog).

(** A binding of the loaded module's namespace. *)
Inductive nsvalue :=
| Plain (v : pyarg)
| Function (body : list pyarg -> list (pystr * pyarg) -> prog).

Definition callable (func : option nsvalue) : bool :=
  match func with
  | Some (Function _) => true
  | _ => false
  end.

(** What the interpreter and its library do, outside this file. *)
Record interp := mk_interp {
  (** whether [contextlib] has an attribute [redirect_stdin] *)
  has_redirect_stdin : bool;
  (** the file name under which the tracer counts the lines of this file's
      own functions, [stub_input] and [fast_sleep], when the traced code
      calls them; [None] when the tracer does not follow their frames (the
      globals of this file hold no [__file__]) *)
  own_file : option pystr;
  float_of_str : pystr -> option float;
  other_input_call : N -> outcome pystr;
  other_sleep_call : N -> pyarg -> outcome unit;
  (** the line events the tracer sees when the callable known by an
      identity is called: none for a built-in function *)
  other_call_lines : N -> list (pystr * Z);
  (** [runpy.run_path(path, run_name="__not_main__")]: the module's
      top-level code runs, with whatever it does to the process *)
  run_path : pystr -> process -> outcome (gmap pystr nsvalue) * process;
}.

(** The state of one call of [run_with_trace] from line 86 on. [counts] is
    the tracer's dict, keyed by (filename, lineno), in insertion order. *)
Record tracing := mk_tracing {
  proc : process;
  fake_stdin : StringIO;
  out_buf : StringIO;
  counts : list (pystr * Z * Z);
}.

Definition with_proc (p : process) (st : tracing) : tracing :=
  {| proc := p; fake_stdin := fake_stdin st; out_buf := out_buf st;
     counts := counts st |}.
Definition with_stdin (f : StringIO) (st : tracing) : tracing :=
  {| proc := proc st; fake_stdin := f; out_buf := out_buf st;
     counts := counts st |}.
Definition with_out (f : StringIO) (st : tracing) : tracing :=
  {| proc := proc st; fake_stdin := fake_stdin st; out_buf := f;
     counts := counts st |}.
Definition with_counts (c : list (pystr * Z * Z)) (st : tracing) : tracing :=
  {| proc := proc st; fake_stdin := fake_stdin st; out_buf := out_buf st;
     counts := c |}.

(** Lines 90-92. *)
Definition stub_input (fake_stdin : StringIO) : pystr * StringIO :=
  let '(line, fake_stdin) := readline fake_stdin in
  (if truthy line then rstrip_chars [10%N] line else [], fake_stdin).

(** Lines 94-96, over the function saved as [original_sleep]. *)
Definition fast_sleep (I : interp)
    (original_sleep : pyarg -> process -> outcome unit * process)
    (s : pyarg) (p : process) : outcome unit * process :=
  match py_float (float_of_str I) s with
  | Raises e => (Raises e, p)
  | Returns x => original_sleep (AFloat (py_min x ten_ms)) p
  end.

(** The interpreter's [time.sleep]: the argument is recorded, and a
    negative or non-numeric one is refused. *)
Definition real_sleep (s : pyarg) (p : process) : outcome unit * process :=
  let p' := {| builtins_input := builtins_input p; time_sleep := time_sleep p;
               slept := slept p ++ [s] |} in
  match s with
  | AFloat x =>
      if PrimFloat.is_nan x || PrimFloat.ltb x 0 then (Raises ValueError, p')
      else (Returns tt, p')
  | AInt n => if n <? 0 then (Raises ValueError, p') else (Returns tt, p')
  | ABool _ => (Returns tt, p')
  | _ => (Raises TypeError, p')
  end.

(** Calling whatever is bound to [time.sleep]. *)
Fixpoint call_sleep (I : interp) (f : sleep_obj) (s : pyarg) (p : process)
    : outcome unit * process :=
  match f with
  | builtin_sleep => real_sleep s p
  | fast_sleep_obj original_sleep =>
      fast_sleep I (call_sleep I original_sleep) s p
  | other_sleep id => (other_sleep_call I id s, p)
  end.

(** Calling whatever is bound to [builtins.input]. The interpreter's own
    [input] writes the prompt to the standard output and reads a line of
    the standard input, which are [out_buf] and [fake_stdin] while the
    entry routine runs. *)
Definition call_input (I : interp) (f : input_obj) (prompt : option pystr)
    (st : tracing) : outcome pystr * tracing :=
  match f with
  | stub_input_obj =>
      let '(r, fs) := stub_input (fake_stdin st) in
      (Returns r, with_stdin fs st)
  | builtin_input =>
      let st := match prompt with
                | Some t => with_out (write (out_buf st) t) st
                | None => st
                end in
      let '(line, fs) := readline (fake_stdin st) in
      if truthy line
      then (Returns (if endswith line [10%N] then removelast line else line),
            with_stdin fs st)
      else (Raises EOFError, with_stdin fs st)
  | other_input id => (other_input_call I id, st)
  end.

(** One more hit of a (filename, lineno) key in the tracer's dict. *)
Fixpoint count_line (key : pystr * Z) (counts : list (pystr * Z * Z))
    : list (pystr * Z * Z) :=
  match counts with
  | [] => [(key, 1)]
  | (k, hits) :: rest =>
      if decide (k = key) then (k, hits + 1) :: rest
      else (k, hits) :: count_line key rest
  end.

(** Lines of this file, as the keys the tracer counts them under. *)
Definition own_lines (I : interp) (lines : list Z) : list (pystr * Z) :=
  match own_file I with
  | Some filename => List.map (fun lineno => (filename, lineno)) lines
  | None => []
  end.

(** The line events of a call, by the traced code, of an object bound to
    [builtins.input]: lines 91 and 92 for the stub, none for the
    interpreter's own function. *)
Definition input_lines (I : interp) (f : input_obj) : list (pystr * Z) :=
  match f with
  | builtin_input => []
  | stub_input_obj => own_lines I [91; 92]
  | other_input id => other_call_lines I id
  end.

(** The same for [time.sleep]: line 96 for [fast_sleep], followed by the
    events of the function it wraps when [float(s)] lets the call reach
    it. *)
Fixpoint sleep_lines (I : interp) (f : sleep_obj) (s : pyarg)
    : list (pystr * Z) :=
  match f with
  | builtin_sleep => []
  | fast_sleep_obj original_sleep =>
      own_lines I [96]
      ++ match py_float (float_of_str I) s with
         | Returns x => sleep_lines I original_sleep (AFloat (py_min x ten_ms))
         | Raises _ => []
         end
  | other_sleep id => other_call_lines I id
  end.

(** The tracer counts each line event. *)
Definition count_lines (keys : list (pystr * Z))
    (counts : list (pystr * Z * Z)) : list (pystr * Z * Z) :=
  foldl (fun counts key => count_line key counts) counts keys.

(** A call of [f] for [input] by the traced code. *)
Definition traced_input (I : interp) (f : input_obj) (prompt : option pystr)
    (st : tracing) : outcome pystr * tracing :=
  call_input I f prompt
    (with_counts (count_lines (input_lines I f) (counts st)) st).

(** A call of [f] for [time.sleep] by the traced code. *)
Definition traced_sleep (I : interp) (f : sleep_obj) (s : pyarg)
    (st : tracing) : outcome unit * tracing :=
  let '(r, p') := call_sleep I f s (proc st) in
  (r, with_proc p'
        (with_counts (count_lines (sleep_lines I f s) (counts st)) st)).

(** The entry routine under the tracer. *)
Fixpoint run_prog (I : interp) (p : prog) (st : tracing)
    : outcome unit * tracing :=
  match p with
  | Return => (Returns tt, st)
  | Raise e => (Raises e, st)
  | Line filename lineno k =>
      run_prog I k (with_counts (count_line (filename, lineno) (counts st)) st)
  | Input prompt k =>
      let '(r, st) := traced_input I (builtins_input (proc st)) prompt st in
      run_prog I (k r) st
  | Sleep s k =>
      let '(r, st) := traced_sleep I (time_sleep (proc st)) s st in
      run_prog I (k r) st
  | Input_via f prompt k =>
      let '(r, st) := traced_input I f prompt st in
      run_prog I (k r) st
  | Sleep_via f s k =>
      let '(r, st) := traced_sleep I f s st in
      run_prog I (k r) st
  | Write_text text k => run_prog I k (with_out (write (out_buf st) text) st)
  | Rebind_input f k => run_prog I k (with_proc (set_input f (proc st)) st)
  | Rebind_sleep f k => run_prog I k (with_proc (set_sleep f (proc st)) st)
  end.

(** The [with] statement of lines 111-112: its third context manager is
    looked up in [contextlib] after the first two are entered, and the
    lookup raises when the attribute is missing. *)
Definition traced_call (I : interp) (body : prog) (st : tracing)
    : outcome unit * tracing :=
  if has_redirect_stdin I then run_prog I body st
  else (Raises AttributeError, st).

(** Line 122: the dict comprehension over the tracer's counts. *)
Definition extract_counts (results : list (pystr * Z * Z)) (path : pystr)
    : gmap Z Z :=
  foldl (fun counts '((fname, ln), hits) =>
           if endswith fname path then <[ln := hits]> counts else counts)
        ∅ results.

(** How the [try] block of lines 102-115 ends. *)
Inductive completion (A : Type) :=
| Falls_through
| Return_value (a : A)
| Exception (e : pyexn).
Arguments Falls_through {A}.
Arguments Return_value {A} a.
Arguments Exception {A} e.

Definition entry_is_set (entry : option pystr) : bool :=
  match entry with
  | Some name => truthy name
  | None => false
  end.

(** Lines 103-115, the body of the [try]. *)
Definition try_block (I : interp) (globs : gmap pystr nsvalue)
    (entry : option pystr) (args : list pyarg) (kwargs : list (pystr * pyarg))
    (original_sleep : sleep_obj) (st : tracing)
    : completion (gmap Z Z * pystr) * tracing :=
  let st := with_proc (set_input stub_input_obj (proc st)) st in
  let st := with_proc (set_sleep (fast_sleep_obj original_sleep) (proc st)) st in
  if entry_is_set entry then
    let func := globs !! default [] entry in
    if negb (callable func) then (Return_value (∅, []), st)
    else
      match func with
      | Some (Function body) =>
          match traced_call I (body args kwargs) st with
          | (Returns _, st) => (Falls_through, st)
          | (Raises e, st) => (Exception e, st)
          end
      | _ => (Return_value (∅, []), st)
      end
  else (Return_value (∅, getvalue (out_buf st)), st).

(** [run_with_trace(path, entry, args, kwargs, stdin_data)]. *)
Definition run_with_trace (I : interp) (path : pystr) (entry : option pystr)
    (args : option (list pyarg)) (kwargs : option (list (pystr * pyarg)))
    (stdin_data : pystr) (p : process)
    : outcome (gmap Z Z * pystr) * process :=
  let args := default [] args in
  let kwargs := default [] kwargs in
  match run_path I path p with
  | (Raises e, p) => (Raises e, p)
  | (Returns globs, p) =>
      let fake_stdin := StringIO_new stdin_data in
      let original_input := builtins_input p in
      let original_sleep := time_sleep p in
      let out_buf := StringIO_new [] in
      let st := {| proc := p; fake_stdin := fake_stdin; out_buf := out_buf;
                   counts := [] |} in
      let '(c, st) := try_block I globs entry args kwargs original_sleep st in
      (* finally *)
      let p := set_sleep original_sleep (set_input original_input (proc st)) in
      match c with
      | Exception e => (Raises e, p)
      | Return_value r => (Returns r, p)
      | Falls_through =>
          let results := counts st in
          let counts := extract_counts results path in
          (Returns (counts, getvalue (Executor.out_buf st)), p)
      end
  end.

End Executor.

(** ** The merge loop of [explain_file] *)

Module Merger.

(** One explanation record: the dict with keys "line", "code", "facts". *)
Record record := mk_record {
  line : Z;
  code : pystr;
  facts : list pystr;
}.

(** [enumerate(l, start)]. *)
Fixpoint enumerate {A} (start : Z) (l : list A) : list (Z * A) :=
  match l with
  | [] => []
  | x :: l' => (start, x) :: enumerate (start + 1) l'
  end.

(** The placeholder of line 148. *)
Definition placeholder : pystr :=
  lit "(no AST events; likely comment/blank or simple expression)".

(** The body of the loop for a line that is not skipped (lines 141-154). *)
Definition line_record (facts : gmap Z (list pystr)) (hits : gmap Z Z)
    (i : Z) (text : pystr) : record :=
  let fact_lines : gset Z := dom facts in
  let hit_lines : gset Z := dom hits in
  let line_info : list pystr := [] in
  let line_info :=
    if decide (i ∈ fact_lines) then line_info ++ facts !!! i else line_info in
  let line_info :=
    if decide (i ∈ hit_lines)
    then line_info ++ [lit "runtime: executed " ++ str_of_int (hits !!! i) ++ lit "x"]
    else line_info in
  let line_info :=
    if negb (truthy line_info) then [placeholder] else line_info in
  {| line := i; code := rstrip text; facts := line_info |}.

(** The [for] loop of lines 137-154; [explanations] is the list built so
    far, and a blank line takes the [continue] of line 139. *)
Fixpoint merge_loop (facts : gmap Z (list pystr)) (hits : gmap Z Z)
    (items : list (Z * pystr)) (explanations : list record) : list record :=
  match items with
  | [] => explanations
  | (i, text) :: rest =>
      if negb (truthy (strip text)) then merge_loop facts hits rest explanations
      else merge_loop facts hits rest
             (explanations ++ [line_record facts hits i text])
  end.

(** Lines 130-156 of [explain_file]: the records for a source text, given
    the fact map and the hit counts. *)
Definition merge (src : pystr) (facts : gmap Z (list pystr)) (hits : gmap Z Z)
    : list record :=
  let lines := splitlines src in
  merge_loop facts hits (enumerate 1 lines) [].

(** [explain_file(path, entry, args, kwargs)]. [read_file] is the content
    of the file system and [ast_facts] the fact map of a source text (both
    raise where Python does: an unreadable file, a syntax error). *)
Definition explain_file (I : Executor.interp)
    (read_file : pystr -> outcome pystr)
    (ast_facts : pystr -> outcome (gmap Z (list pystr)))
    (path : pystr) (entry : option pystr) (args : option (list pyarg))
    (kwargs : option (list (pystr * pyarg))) (p : Executor.process)
    : outcome (list record * pystr) * Executor.process :=
  match read_file path with
  | Raises e => (Raises e, p)
  | Returns src =>
      match ast_facts src with
      | Raises e => (Raises e, p)
      | Returns facts =>
          match Executor.run_with_trace I path entry args kwargs [] p with
          | (Raises e, p) => (Raises e, p)
          | (Returns (hits, out), p) => (Returns (merge src facts hits, out), p)
          end
      end
  end.

End Merger.

(** ** [call_local_llm] and [explain_with_llm] *)

Module Renderer.
Import Merger.

(** A parsed JSON document, as [json.loads] returns it. *)
#[local] Set Warnings "-register-all".
Inductive json :=
| JNull
| JBool (b : bool)
| JInt (n : Z)
| JFloat (x : float)
| JStr (s : pystr)
| JList (items : list json)
| JDict (items : list (pystr * json)).

(** How one [subprocess.run] of the backend ends. *)
Inductive attempt_result :=
| Timed_out
| Completed (returncode : Z) (stdout stderr : list Byte.byte)
| Failed (e : pyexn).

(** The backend and the library calls around it. [ollama_run input n] is
    the end of the [n]-th run of the process since the program started. *)
Record backend := mk_backend {
  USE_OLLAMA : bool;
  ollama_run : list Byte.byte -> nat -> attempt_result;
  encode_utf8 : pystr -> option (list Byte.byte);
  decode_utf8 : list Byte.byte -> option pystr;
  json_dumps : record -> pystr;
  json_loads : pystr -> option json;
}.

(** What the renderer does to the outside: runs of the backend so far and
    lines printed. *)
Record console := mk_console {
  runs : nat;
  printed : list pystr;
}.

Definition ran (c : console) : console :=
  {| runs := S (runs c); printed := printed c |}.
Definition print (text : pystr) (c : console) : console :=
  {| runs := runs c; printed := printed c ++ [text] |}.

(** [range(n)]. *)
Definition py_range (n : Z) : list Z :=
  List.map Z.of_nat (seq 0 (Z.to_nat n)).

(** The [for] loop of lines 180-198 over the remaining attempt numbers.
    Leaving the loop without [return] would make the function return
    [None]. *)
Fixpoint attempts (B : backend) (prompt : pystr) (retries : Z)
    (todo : list Z) (c : console) : outcome (option pystr) * console :=
  match todo with
  | [] => (Returns None, c)
  | attempt :: rest =>
      match encode_utf8 B prompt with
      | None => (Raises UnicodeError, c)
      | Some input =>
          match ollama_run B input (runs c) with
          | Timed_out =>
              let c := ran c in
              if attempt <? retries then
                attempts B prompt retries rest
                  (print (lit "Attempt " ++ str_of_int (attempt + 1)
                          ++ lit " failed due to timeout. Retrying...") c)
              else
                (Raises (SystemExit (lit "Ollama command timed out after multiple attempts. Ensure the model is available and try again.")), c)
          | Failed e => (Raises e, ran c)
          | Completed returncode stdout stderr =>
              let c := ran c in
              if negb (returncode =? 0) then
                match decode_utf8 B stderr with
                | None => (Raises UnicodeError, c)
                | Some err =>
                    (Raises (RuntimeError (lit "Ollama command failed. Check the error above.")),
                     print (lit "Error running Ollama: " ++ err) c)
                end
              else
                match decode_utf8 B stdout with
                | None => (Raises UnicodeError, c)
                | Some out => (Returns (Some out), c)
                end
          end
      end
  end.

(** [call_local_llm(prompt)]. *)
Definition call_local_llm (B : backend) (prompt : pystr) (c : console)
    : outcome (option pystr) * console :=
  if USE_OLLAMA B then
    let retries := 2 in
    attempts B prompt retries (py_range (retries + 1)) c
  else
    (Raises (SystemExit (lit "No local LLM runner found (expected Ollama). Install and retry.")), c).

Definition quote : pystr := [34%N].
Definition newline : pystr := [10%N].

Definition SYSTEM_PROMPT : pystr :=
  join newline
    [ lit "You are a code explainer.";
      lit "You will be given, for each line: the original code and a list of FACTS derived from AST/runtime.";
      lit "RULES:";
      lit "- ONLY restate those facts. Do not invent behavior or values not present in facts.";
      lit "- If something is unknown, say 'unknown from provided facts'.";
      lit "- Keep explanations short (1" ++ [8211%N] ++ lit "2 sentences per line).";
      lit "- Include the line number.";
      lit "- If a potential issue is EVIDENT from facts (e.g., never executed, risky IO, untrusted network, high fail rate), emit a 'red_flag' with a one-line reason.";
      lit "- Output strict JSON: { " ++ quote ++ lit "lines" ++ quote
        ++ lit ": [ { " ++ quote ++ lit "line" ++ quote ++ lit ": <int>, "
        ++ quote ++ lit "explanation" ++ quote ++ lit ": " ++ quote
        ++ lit "<string>" ++ quote ++ lit ", " ++ quote ++ lit "red_flags"
        ++ quote ++ lit ": [" ++ quote ++ lit "..." ++ quote ++ lit "] } ] }" ].

(** [USER_TEMPLATE.format(items=items)]. *)
Definition USER_TEMPLATE (items : pystr) : pystr :=
  lit "CODE FACTS:" ++ newline ++ items ++ newline
  ++ lit "Now produce the JSON as specified." ++ newline.

(** [build_user_prompt(facts)]: one [json.dumps] of each record. *)
Definition build_user_prompt (B : backend) (facts : list record) : pystr :=
  let blocks := List.map (json_dumps B) facts in
  USER_TEMPLATE (join newline blocks).

(** [any(sub in f for f in fs)]. *)
Definition any_contains (sub : pystr) (fs : list pystr) : bool :=
  existsb (fun f => contains f sub) fs.

(** The body of the loop of lines 215-224 on one record: the record as it
    is after the iteration, [facts] being appended to in place. *)
Definition preflag (it : record) : record :=
  let ff : list pystr := [] in
  let ff :=
    if negb (any_contains (lit "runtime: executed") (facts it))
    then ff ++ [lit "never_executed_in_trace"] else ff in
  let ff :=
    if existsb (fun f => contains f (lit "writes_to_network")
                         || contains f (lit "scrape_untrusted")) (facts it)
    then ff ++ [lit "risky_io_or_network"] else ff in
  let ff :=
    if any_contains (lit "execute_code") (facts it)
    then ff ++ [lit "dynamic_code_execution"] else ff in
  if truthy ff then
    {| line := line it; code := code it;
       facts := facts it ++ [lit "precheck_flags: " ++ join (lit ",") ff] |}
  else it.

(** Line 233. *)
Definition clean (raw : pystr) : pystr :=
  let start := find raw (lit "{") in
  let end_ := rfind raw (lit "}") in
  if negb (start =? -1) && negb (end_ =? -1)
  then slice raw start (end_ + 1) else raw.

(** [explain_with_llm(facts)]. The records of [facts] are the caller's
    objects, each with a facts list of its own (as [explain_file] builds
    them), so the second component is the caller's list as the call leaves
    it. *)
Definition explain_with_llm (B : backend) (facts : list record) (c : console)
    : outcome json * list record * console :=
  let facts := List.map preflag facts in
  let user := build_user_prompt B facts in
  let full_prompt :=
    lit "system" ++ newline ++ SYSTEM_PROMPT ++ newline ++ newline
    ++ lit "user" ++ newline ++ user ++ newline in
  match call_local_llm B full_prompt c with
  | (Raises e, c) => (Raises e, facts, c)
  | (Returns None, c) => (Raises AttributeError, facts, c)
  | (Returns (Some raw), c) =>
      let cleaned := clean raw in
      match json_loads B cleaned with
      | None => (Raises JSONDecodeError, facts, c)
      | Some data => (Returns data, facts, c)
      end
  end.

End Renderer.

(** ** The notions the statements below are written in *)

Module Spec.
Import Executor.

(** A text is blank when it is empty or made of whitespace only. *)
Definition whitespace_only (text : pystr) : Prop :=
  Forall (fun c => is_space c = true) text.

(** The items of the merge loop that are not skipped. *)
Definition kept (items : list (Z * pystr)) : list (Z * pystr) :=
  List.filter (fun it => truthy (strip (snd it))) items.


(** The lines of a stdin buffer, without their line feeds: every line feed
    ends a line, and text after the last one is a line too. *)
Fixpoint buffer_lines_from (cur : pystr) (s : pystr) : list pystr :=
  match s with
  | [] => match cur with [] => [] | _ => [rev cur] end
  | c :: s' =>
      if (c =? 10)%N then rev cur :: buffer_lines_from [] s'
      else buffer_lines_from (c :: cur) s'
  end.
Definition buffer_lines (s : pystr) : list pystr := buffer_lines_from [] s.

(** [n] successive calls of the input stub, and what they return. *)
Fixpoint reads (n : nat) (fake_stdin : StringIO) : list pystr :=
  match n with
  | O => []
  | S n' =>
      let '(r, fake_stdin) := stub_input fake_stdin in
      r :: reads n' fake_stdin
  end.

(** The tracer's dict when [run_with_trace] leaves its [try] block: what
    [tracer.results().counts] holds. *)
Definition tracer_results (I : interp) (path : pystr) (entry : option pystr)
    (args : option (list pyarg)) (kwargs : option (list (pystr * pyarg)))
    (stdin_data : pystr) (p : process) : list (pystr * Z * Z) :=
  match run_path I path p with
  | (Raises _, _) => []
  | (Returns globs, p) =>
      let st := {| proc := p; fake_stdin := StringIO_new stdin_data;
                   out_buf := StringIO_new []; counts := [] |} in
      counts (snd (try_block I globs entry (default [] args)
                     (default [] kwargs) (time_sleep p) st))
  end.

(** No line feed in a text. *)
Definition no_newline (l : pystr) : Prop :=
  Forall (fun c => (c =? 10)%N = false) l.

(** The physical lines of a source text, as Python numbers them for
    [lineno] in [ast] and in [trace]: a line ends at a line feed, at a
    carriage return, or at a carriage return with the line feed after it,
    and at nothing else; text after the last line end is a line too. *)
Fixpoint physical_lines_from (cur : pystr) (s : pystr) : list pystr :=
  match s with
  | [] => match cur with [] => [] | _ => [rev cur] end
  | c :: s' =>
      if (c =? 10)%N then rev cur :: physical_lines_from [] s'
      else if (c =? 13)%N then
        rev cur ::
          match s' with
          | d :: s'' =>
              if (d =? 10)%N then physical_lines_from [] s''
              else physical_lines_from [] s'
          | [] => []
          end
      else physical_lines_from (c :: cur) s'
  end.
Definition physical_lines (s : pystr) : list pystr := physical_lines_from [] s.

(** The characters that are no line end in a source file but at which
    [str.splitlines] breaks a line all the same: vertical tab, form feed,
    the file, group and record separators, next line, and the line and
    paragraph separators. *)
Definition extra_boundary (c : N) : bool :=
  in_range 11 12 c || in_range 28 30 c || (c =? 133)%N
  || (c =? 8232)%N || (c =? 8233)%N.

(** A source text that holds none of them. *)
Definition plain_line_ends (s : pystr) : Prop :=
  Forall (fun c => extra_boundary c = false) s.

(** The runs of the backend numbered from [runs c] on, [k] of them, all
    time out. *)
Definition first_timeouts (B : Renderer.backend) (input : list Byte.byte)
    (c : Renderer.console) (k : nat) : Prop :=
  forall j, (j < k)%nat ->
    Renderer.ollama_run B input (Renderer.runs c + j) = Renderer.Timed_out.

(** The prompt [explain_with_llm] sends for the records it is given. *)
Definition sent_prompt (B : Renderer.backend) (facts : list Merger.record)
    : pystr :=
  lit "system" ++ Renderer.newline ++ Renderer.SYSTEM_PROMPT
  ++ Renderer.newline ++ Renderer.newline ++ lit "user" ++ Renderer.newline
  ++ Renderer.build_user_prompt B (List.map Renderer.preflag facts)
  ++ Renderer.newline.

End Spec.
Import Spec.

(** ** A small module to run the definitions on *)

Module Demo.
Import Executor.

(** The entry routine [f] of a file a.py: one line of its own, then one
    line of a helper that lives in a file data.py. *)
Definition f_body (args : list pyarg) (kwargs : list (pystr * pyarg)) : prog :=
  Line (lit "a.py") 2 (Line (lit "data.py") 7 Return).

(** The entry routine [g]: it reads three lines, echoes them, asks for a
    pause of five seconds, rebinds both names and fails. *)
Definition g_body (args : list pyarg) (kwargs : list (pystr * pyarg)) : prog :=
  Input None (fun a =>
  Input None (fun b =>
  Input None (fun c =>
  Write_text (match a with Returns t => t | Raises _ => lit "?" end) (
  Write_text (match b with Returns t => t | Raises _ => lit "?" end) (
  Write_text (match c with Returns t => lit "<" ++ t ++ lit ">" | Raises _ => lit "?" end) (
  Sleep (AInt 5) (fun _ =>
  Rebind_input (other_input 7) (
  Rebind_sleep (other_sleep 8) (
  Raise (OtherError (lit "boom"))))))))))).

Definition globs : gmap pystr nsvalue :=
  {[ lit "f" := Function f_body;
     lit "g" := Function g_body;
     lit "n" := Plain (AInt 3) ]}.

(** An interpreter in which loading any path gives the namespace above and
    leaves the process alone; [redirect_stdin] says whether [contextlib]
    has that attribute (CPython's has not). *)
Definition python (redirect_stdin : bool) : interp :=
  {| has_redirect_stdin := redirect_stdin;
     own_file := Some (lit "explain_lines.py");
     float_of_str := fun _ => None;
     other_input_call := fun _ => Returns [];
     other_sleep_call := fun _ _ => Returns tt;
     other_call_lines := fun _ => [];
     run_path := fun _ p => (Returns globs, p) |}.

Definition p0 : process :=
  {| builtins_input := builtin_input; time_sleep := builtin_sleep; slept := [] |}.

(** CPython with a file whose top-level code rebinds [builtins.input] to a
    function of its own (identity 9) and defines the names above. *)
Definition rebinding_python : interp :=
  {| has_redirect_stdin := false;
     own_file := Some (lit "explain_lines.py");
     float_of_str := fun _ => None;
     other_input_call := fun _ => Returns [];
     other_sleep_call := fun _ _ => Returns tt;
     other_call_lines := fun _ => [];
     run_path := fun _ p => (Returns globs, set_input (other_input 9) p) |}.

(** The UTF-8 bytes of one code point; a surrogate has none. *)
Definition utf8_char (c : N) : option (list Byte.byte) :=
  let cont (x : N) := Byte.of_N (128 + x mod 64)%N in
  if (c <? 128)%N then mapM Byte.of_N [c]
  else if (c <? 2048)%N then
    mapM id [Byte.of_N (192 + c / 64)%N; cont c]
  else if (55296 <=? c)%N && (c <=? 57343)%N then None
  else if (c <? 65536)%N then
    mapM id [Byte.of_N (224 + c / 4096)%N; cont (c / 64)%N; cont c]
  else if (c <? 1114112)%N then
    mapM id [Byte.of_N (240 + c / 262144)%N; cont (c / 4096)%N;
             cont (c / 64)%N; cont c]
  else None.

Definition encode_utf8 (s : pystr) : option (list Byte.byte) :=
  (fun chunks => List.concat chunks) <$> mapM utf8_char s.

(** Decoding of ASCII answers; the examples have no others. *)
Definition decode_ascii (b : list Byte.byte) : option pystr :=
  mapM (fun x => let c := Byte.to_N x in
                 if (c <? 128)%N then Some c else None) b.

(** A parser that knows the two smallest documents. *)
Definition loads_empty (s : pystr) : option Renderer.json :=
  if decide (s = lit "[]") then Some (Renderer.JList [])
  else if decide (s = lit "{}") then Some (Renderer.JDict [])
  else None.

Definition bytes_of (s : string) : list Byte.byte :=
  default [] (encode_utf8 (lit s)).
Arguments bytes_of s%_string.

(** A backend that times out twice and then answers with a bare array. *)
Definition backend : Renderer.backend :=
  {| Renderer.USE_OLLAMA := true;
     Renderer.ollama_run := fun _ n =>
       match n with
       | O | S O => Renderer.Timed_out
       | _ => Renderer.Completed 0 (bytes_of "[]") []
       end;
     Renderer.encode_utf8 := encode_utf8;
     Renderer.decode_utf8 := decode_ascii;
     Renderer.json_dumps := fun r => lit "{}";
     Renderer.json_loads := loads_empty |}.

(** A backend whose process exits with status 1 on the second run. *)
Definition failing_backend : Renderer.backend :=
  {| Renderer.USE_OLLAMA := true;
     Renderer.ollama_run := fun _ n =>
       match n with
       | O => Renderer.Timed_out
       | _ => Renderer.Completed 1 [] (bytes_of "no model")
       end;
     Renderer.encode_utf8 := encode_utf8;
     Renderer.decode_utf8 := decode_ascii;
     Renderer.json_dumps := fun r => lit "{}";
     Renderer.json_loads := loads_empty |}.

Definition c0 : Renderer.console :=
  {| Renderer.runs := 0; Renderer.printed := [] |}.

End Demo.

(** ** [ast_facts] *)

Module Facts.

(** The class of a node of the parsed tree, with what [ast_facts] reads of
    a node of that class: the texts that [ast.unparse] gives for the
    targets of an assignment, the texts that [ast.get_source_segment] gives
    for the parts a fact quotes ([None] where it gives [None]), and the
    names. [Return] holds [None] for a bare [return]. Every class the
    function does not test for is [Other]. *)
Inductive node_kind :=
| Assign (targets : list pystr) (value : option pystr)
| AugAssign (target : option pystr) (op : pystr) (value : option pystr)
| Call (func : option pystr)
| Return (value : option (option pystr))
| If (test : option pystr)
| For (target iter : option pystr)
| While
| Import_ (names : list pystr)
| ImportFrom (module : option pystr) (names : list pystr)
| With
| FunctionDef (name : pystr) (args : list pystr)
| ClassDef (name : pystr)
| Other.

(** A node: its class, its [lineno] ([None] when it has no such attribute)
    and its child nodes in the order of [ast.iter_child_nodes]. *)
#[local] Set Warnings "-register-all".
Inductive node :=
| Node (kind : node_kind) (lineno : option Z) (children : list node).

Definition kind (n : node) : node_kind :=
  match n with Node k _ _ => k end.
Definition lineno (n : node) : option Z :=
  match n with Node _ ln _ => ln end.
Definition children (n : node) : list node :=
  match n with Node _ _ ch => ch end.

(** The number of nodes of a tree, and of the trees of a queue. *)
Fixpoint size (n : node) : nat :=
  match n with
  | Node _ _ ch => S (sum_list_with size ch)
  end.
Definition forest_size (todo : list node) : nat := sum_list_with size todo.

(** The nodes of a tree, each before its descendants. *)
Fixpoint subnodes (n : node) : list node :=
  match n with
  | Node _ _ ch => n :: flat_map subnodes ch
  end.

(** [ast.walk]: the loop over the queue [todo], which pops the first node,
    puts its children at the end and yields it. [fuel] bounds the number of
    passes; the loop ends when the queue is empty. *)
Fixpoint walk_loop (fuel : nat) (todo : list node) : list node :=
  match fuel, todo with
  | S fuel', n :: rest => n :: walk_loop fuel' (rest ++ children n)
  | _, _ => []
  end.

(** One pass for each node of the tree empties the queue. *)
Definition walk (tree : node) : list node := walk_loop (size tree) [tree].

(** The nodes [d] levels below the nodes of a list, from left to right:
    the children of the first node, then those of the second, and so on,
    [d] times over. *)
Fixpoint generation (d : nat) (nodes : list node) : list node :=
  match d with
  | O => nodes
  | S d' => generation d' (flat_map children nodes)
  end.

(** An optional text inside an f-string: [None] prints as "None". *)
Definition fmt (seg : option pystr) : pystr :=
  match seg with
  | Some t => t
  | None => lit "None"
  end.

(** [seg or default]: the default replaces [None] and the empty text. *)
Definition or_else (seg : option pystr) (default : pystr) : pystr :=
  match seg with
  | Some t => if truthy t then t else default
  | None => default
  end.

(** The string lines 36-68 append for a node, by its class. *)
Definition fact_of (k : node_kind) : option pystr :=
  match k with
  | Assign targets value =>
      Some (lit "assign: " ++ join (lit ", ") targets ++ lit " = "
            ++ or_else value (lit "..."))
  | AugAssign target op value =>
      Some (lit "augassign: " ++ fmt target ++ lit " " ++ op ++ lit "= "
            ++ fmt value)
  | Call func => Some (lit "call: " ++ or_else func (lit "call") ++ lit "(...)")
  | Return value =>
      Some (lit "return: "
            ++ match value with
               | Some seg => fmt seg
               | None => lit "None"
               end)
  | If test => Some (lit "branch-if: " ++ fmt test)
  | For target iter =>
      Some (lit "loop-for: " ++ fmt target ++ lit " in " ++ fmt iter)
  | While => Some (lit "loop-while: condition")
  | Import_ names => Some (lit "import: " ++ join (lit ", ") names)
  | ImportFrom module names =>
      Some (lit "from " ++ or_else module (lit ".") ++ lit " import "
            ++ join (lit ", ") names)
  | With => Some (lit "with: context manager")
  | FunctionDef name args =>
      Some (lit "def: " ++ name ++ lit "(" ++ join (lit ", ") args ++ lit ")")
  | ClassDef name => Some (lit "class: " ++ name)
  | Other => None
  end.

(** The body of the loop of lines 32-68 on one node: a node without a
    line number is skipped; otherwise [facts.setdefault(ln, [])] gives the
    list of the line, to which the node's fact, if it has one, is
    appended. *)
Definition visit (facts : gmap Z (list pystr)) (n : node)
    : gmap Z (list pystr) :=
  match lineno n with
  | None => facts
  | Some ln =>
      let items := default [] (facts !! ln) in
      match fact_of (kind n) with
      | Some fact => <[ln := items ++ [fact]]> facts
      | None => <[ln := items]> facts
      end
  end.

(** The fact map of a parsed tree. *)
Definition facts_of_tree (tree : node) : gmap Z (list pystr) :=
  foldl visit ∅ (walk tree).

(** [ast_facts(src)]; [parse] is [ast.parse], which raises on a source
    that is not Python. *)
Definition ast_facts (parse : pystr -> outcome node) (src : pystr)
    : outcome (gmap Z (list pystr)) :=
  match parse src with
  | Raises e => Raises e
  | Returns tree => Returns (facts_of_tree tree)
  end.

(** The nodes of a list that start on a line. *)
Definition on_line (ln : Z) (nodes : list node) : list node :=
  List.filter (fun n => bool_decide (lineno n = Some ln)) nodes.

(** The facts of the nodes of a list, in its order. *)
Definition facts_of_nodes (nodes : list node) : list pystr :=
  omap (fun n => fact_of (kind n)) nodes.

End Facts.

(** ** [json.dumps] of a record *)

Module Json.

(** A hexadecimal digit, in lower case. *)
Definition hex_digit (n : N) : N :=
  if (n <? 10)%N then (48 + n)%N else (87 + n)%N.

(** How [json.dumps(..., ensure_ascii=False)] writes one character of a
    string: the quote, the backslash and the characters below the space
    are escaped, every other character stands for itself. *)
Definition escape (c : N) : pystr :=
  if (c =? 34)%N then [92; 34]%N
  else if (c =? 92)%N then [92; 92]%N
  else if (c =? 10)%N then [92; 110]%N
  else if (c =? 13)%N then [92; 114]%N
  else if (c =? 9)%N then [92; 116]%N
  else if (c =? 8)%N then [92; 98]%N
  else if (c =? 12)%N then [92; 102]%N
  else if (c <? 32)%N then
    [92; 117; 48; 48; hex_digit (c / 16); hex_digit (c mod 16)]%N
  else [c].

Definition dumps_str (s : pystr) : pystr :=
  [34%N] ++ flat_map escape s ++ [34%N].

Definition dumps_list (l : list pystr) : pystr :=
  lit "[" ++ join (lit ", ") (List.map dumps_str l) ++ lit "]".

(** [json.dumps(block, ensure_ascii=False)] for the dict of lines 205-209,
    whose keys are "line", "code" and "facts" in this order. *)
Definition dumps_block (it : Merger.record) : pystr :=
  lit "{" ++ dumps_str (lit "line") ++ lit ": "
  ++ str_of_int (Merger.line it) ++ lit ", "
  ++ dumps_str (lit "code") ++ lit ": " ++ dumps_str (Merger.code it)
  ++ lit ", "
  ++ dumps_str (lit "facts") ++ lit ": " ++ dumps_list (Merger.facts it)
  ++ lit "}".

(** A text with no character below the space (U+0020). *)
Definition printable (s : pystr) : Prop :=
  Forall (fun c => (32 <=? c)%N = true) s.

End Json.

(** ** A small source to run the fact extraction on *)

Module Sample.
Import Facts.

(** Three lines: a definition, an assignment of a call, and [pass]. *)
Definition src : pystr :=
  join [10%N]
    [lit "def f(x):"; lit "    y = g(x)   "; lit "    pass"; lit ""].

(** The tree [ast.parse] gives for it, as far as [ast_facts] reads it. *)
Definition tree : node :=
  Node Other None
    [Node (FunctionDef (lit "f") [lit "x"]) (Some 1)
       [Node Other None [Node Other (Some 1) []];
        Node (Assign [lit "y"] (Some (lit "g(x)"))) (Some 2)
          [Node Other (Some 2) [];
           Node (Call (Some (lit "g"))) (Some 2)
             [Node Other (Some 2) []; Node Other (Some 2) []]];
        Node Other (Some 3) []]].

Definition read_file (path : pystr) : outcome pystr := Returns src.
Definition parse (text : pystr) : outcome node := Returns tree.

(** An entry routine that asks for a pause of five seconds and for one of
    under a millisecond, and an interpreter that loads it under the name [h]. *)
Definition h_body (args : list pyarg) (kwargs : list (pystr * pyarg))
    : Executor.prog :=
  Executor.Sleep (AInt 5) (fun _ =>
  Executor.Sleep (AFloat 0x1p-10) (fun _ => Executor.Return)).

Definition python : Executor.interp :=
  {| Executor.has_redirect_stdin := true;
     Executor.own_file := Some (lit "explain_lines.py");
     Executor.float_of_str := fun _ => None;
     Executor.other_input_call := fun _ => Returns [];
     Executor.other_sleep_call := fun _ _ => Returns tt;
     Executor.other_call_lines := fun _ => [];
     Executor.run_path := fun _ p =>
       (Returns {[ lit "h" := Executor.Function h_body ]}, p) |}.

(** An entry routine of a file that says [from time import sleep]: its
    pause goes to the interpreter's function, whatever [time.sleep] is
    bound to. *)
Definition saved_sleep_body (args : list pyarg) (kwargs : list (pystr * pyarg))
    : Executor.prog :=
  Executor.Sleep_via Executor.builtin_sleep (AInt 5) (fun _ => Executor.Return).

Definition saved_sleep_python : Executor.interp :=
  {| Executor.has_redirect_stdin := true;
     Executor.own_file := Some (lit "explain_lines.py");
     Executor.float_of_str := fun _ => None;
     Executor.other_input_call := fun _ => Returns [];
     Executor.other_sleep_call := fun _ _ => Returns tt;
     Executor.other_call_lines := fun _ => [];
     Executor.run_path := fun _ p =>
       (Returns {[ lit "h" := Executor.Function saved_sleep_body ]}, p) |}.

(** Two assignments with a line between them that holds a form feed only:
    "x = 1\n\f\ny = 2\n". *)
Definition form_feed_src : pystr :=
  lit "x = 1" ++ [10; 12; 10]%N ++ lit "y = 2" ++ [10%N].

(** The tree [ast.parse] gives for it: the second assignment is on line 3. *)
Definition form_feed_tree : node :=
  Node Other None
    [Node (Assign [lit "x"] (Some (lit "1"))) (Some 1)
       [Node Other (Some 1) [Node Other None []]; Node Other (Some 1) []];
     Node (Assign [lit "y"] (Some (lit "2"))) (Some 3)
       [Node Other (Some 3) [Node Other None []]; Node Other (Some 3) []]].

(** The backend of the demonstration, with [json.dumps] for the records. *)
Definition backend : Renderer.backend :=
  {| Renderer.USE_OLLAMA := true;
     Renderer.ollama_run := Renderer.ollama_run Demo.backend;
     Renderer.encode_utf8 := Demo.encode_utf8;
     Renderer.decode_utf8 := Demo.decode_ascii;
     Renderer.json_dumps := Json.dumps_block;
     Renderer.json_loads := Demo.loads_empty |}.

End Sample.

(** ** Further notions, for the properties beyond the coverage of lines *)

Module Notions.

(** The annotation of line 145 for a hit count. *)
Definition runtime_annotation (h : Z) : pystr :=
  lit "runtime: executed " ++ str_of_int h ++ lit "x".

(** The list [ff] that lines 216-222 build for a record. *)
Definition precheck_flags (it : Merger.record) : list pystr :=
  let ff : list pystr := [] in
  let ff :=
    if negb (Renderer.any_contains (lit "runtime: executed") (Merger.facts it))
    then ff ++ [lit "never_executed_in_trace"] else ff in
  let ff :=
    if existsb (fun f => contains f (lit "writes_to_network")
                         || contains f (lit "scrape_untrusted"))
         (Merger.facts it)
    then ff ++ [lit "risky_io_or_network"] else ff in
  if Renderer.any_contains (lit "execute_code") (Merger.facts it)
  then ff ++ [lit "dynamic_code_execution"] else ff.

(** The string line 224 appends for a non-empty [ff]. *)
Definition precheck_annotation (ff : list pystr) : pystr :=
  lit "precheck_flags: " ++ join (lit ",") ff.

(** A character does not occur in a text. *)
Definition free_of (c : N) (s : pystr) : Prop :=
  Forall (fun d => (d =? c)%N = false) s.

(** The two braces line 233 looks for. *)
Definition open_brace : N := 123.
Definition close_brace : N := 125.

(** A text that holds no line boundary. *)
Definition single_line (s : pystr) : Prop :=
  Forall (fun c => is_linebreak c = false) s.

(** An entry routine that pauses through the name [time.sleep] only:
    whatever its calls return, it never rebinds the name and never calls a
    sleep function through a reference of its own. *)
Fixpoint sleeps_by_name (p : Executor.prog) : Prop :=
  match p with
  | Executor.Return | Executor.Raise _ => True
  | Executor.Line _ _ k | Executor.Write_text _ k
  | Executor.Rebind_input _ k => sleeps_by_name k
  | Executor.Input _ k | Executor.Input_via _ _ k =>
      forall r, sleeps_by_name (k r)
  | Executor.Sleep _ k => forall r, sleeps_by_name (k r)
  | Executor.Sleep_via _ _ _ | Executor.Rebind_sleep _ _ => False
  end.

(** An argument of the interpreter's [time.sleep] that is a float not
    above 0.01. *)
Definition clamped (a : pyarg) : Prop :=
  exists d, a = AFloat d /\ PrimFloat.ltb ten_ms d = false.

(** Every key of the tracer's dict has been hit at least once. *)
Definition counted_once_or_more (counts : list (pystr * Z * Z)) : Prop :=
  Forall (fun e => 1 <= snd e) counts.

End Notions.
Import Notions.

(** * Properties *)

(** ** Strings *)

Section PyStrFacts.

Example splitlines_ex :
  splitlines (lit "a" ++ [13; 10] ++ lit "b" ++ [10; 13] ++ lit "c")%N
  = [lit "a"; lit "b"; []; lit "c"]
  /\ splitlines [] = [] /\ splitlines [10%N] = [[]]
  /\ splitlines (lit "a" ++ [10; 10])%N = [lit "a"; []].
Proof. repeat split; reflexivity. Qed.

Lemma lstrip_by_head p s :
  lstrip_by p s = [] \/ exists c t, lstrip_by p s = c :: t /\ p c = false.
Proof.
  induction s as [|c s IH]; simpl; [by left|].
  destruct (p c) eqn:Hc; [exact IH|right; eauto].
Qed.

Lemma lstrip_by_nil p s : lstrip_by p s = [] <-> Forall (fun c => p c = true) s.
Proof.
  induction s as [|c s IH]; simpl.
  - split; [constructor|done].
  - destruct (p c) eqn:Hc.
    + rewrite IH. split; [by constructor|by inversion 1].
    + split; [done|]. inversion 1; congruence.
Qed.

Lemma rstrip_by_nil p s : rstrip_by p s = [] <-> Forall (fun c => p c = true) s.
Proof.
  unfold rstrip_by. split.
  - intros H. apply (f_equal (@rev N)) in H. rewrite rev_involutive in H.
    simpl in H. apply lstrip_by_nil in H.
    rewrite <- (rev_involutive s). apply Forall_rev. exact H.
  - intros H. apply Forall_rev in H. apply lstrip_by_nil in H.
    rewrite H. reflexivity.
Qed.

(** [not text.strip()] holds exactly for the blank texts. *)
Lemma strip_blank text : truthy (strip text) = false <-> whitespace_only text.
Proof.
  unfold strip, whitespace_only.
  assert (Ht : forall l : pystr, truthy l = false <-> l = [])
    by (intros []; simpl; split; congruence).
  rewrite Ht, rstrip_by_nil. split.
  - intros H. apply lstrip_by_nil.
    destruct (lstrip_by_head is_space text) as [E|(c & t & E & Hc)]; [done|].
    rewrite E in H. inversion H; congruence.
  - intros H. apply lstrip_by_nil in H. rewrite H. constructor.
Qed.

End PyStrFacts.

(** ** The merge *)

Section MergerFacts.
Import Merger.

Variables (fmap : gmap Z (list pystr)) (hits : gmap Z Z).

Lemma merge_loop_spec items acc :
  merge_loop fmap hits items acc
  = acc ++ List.map (fun it => line_record fmap hits (fst it) (snd it)) (kept items).
Proof.
  revert acc. induction items as [|[i text] items IH]; intros acc; simpl.
  - by rewrite app_nil_r.
  - destruct (truthy (strip text)); simpl; rewrite IH; [|done].
    by rewrite <- app_assoc.
Qed.

Lemma enumerate_lookup {A} (l : list A) start (k : nat) :
  enumerate start l !! k = (fun x => (start + Z.of_nat k, x)) <$> l !! k.
Proof.
  revert start k. induction l as [|x l IH]; intros start [|k]; simpl; try done.
  - by rewrite Z.add_0_r.
  - rewrite IH. destruct (l !! k); simpl; [|done]. do 2 f_equal. lia.
Qed.

Lemma elem_of_enumerate {A} (l : list A) start i x :
  (i, x) ∈ enumerate start l
  <-> start <= i /\ l !! Z.to_nat (i - start) = Some x.
Proof.
  rewrite list_elem_of_lookup. split.
  - intros [k Hk]. rewrite enumerate_lookup in Hk.
    destruct (l !! k) eqn:E; simplify_eq/=. split; [lia|].
    by replace (Z.to_nat (start + Z.of_nat k - start)) with k by lia.
  - intros [Hle Hx]. exists (Z.to_nat (i - start)).
    rewrite enumerate_lookup, Hx. simpl. do 2 f_equal. lia.
Qed.

Lemma kept_lower_bound start (l : list pystr) :
  Forall (fun i => start <= i) (List.map fst (kept (enumerate start l))).
Proof.
  revert start. induction l as [|x l IH]; intros start; simpl; [constructor|].
  specialize (IH (start + 1)).
  assert (Forall (fun i => start <= i)
            (List.map fst (kept (enumerate (start + 1) l)))).
  { eapply Forall_impl; [exact IH|]. simpl. intros; lia. }
  destruct (truthy (strip x)); simpl; [constructor; [lia|done]|done].
Qed.

Lemma kept_ascending start (l : list pystr) :
  StronglySorted Z.lt (List.map fst (kept (enumerate start l))).
Proof.
  revert start. induction l as [|x l IH]; intros start; simpl; [constructor|].
  destruct (truthy (strip x)); simpl; [|apply IH].
  constructor; [apply IH|].
  eapply Forall_impl; [apply (kept_lower_bound (start + 1))|].
  simpl. intros; lia.
Qed.

Lemma merge_lines src :
  List.map line (merge src fmap hits)
  = List.map fst (kept (enumerate 1 (splitlines src))).
Proof.
  unfold merge. rewrite merge_loop_spec. simpl.
  rewrite List.map_map. reflexivity.
Qed.

Lemma elem_of_merge src r :
  r ∈ merge src fmap hits
  <-> exists text, splitlines src !! Z.to_nat (line r - 1) = Some text
        /\ 1 <= line r /\ ~ whitespace_only text
        /\ r = line_record fmap hits (line r) text.
Proof.
  unfold merge. rewrite merge_loop_spec. simpl.
  rewrite list_elem_of_In, in_map_iff. split.
  - intros ([i text] & <- & Hin). simpl.
    apply filter_In in Hin as [Hin Hk].
    apply list_elem_of_In, elem_of_enumerate in Hin as [Hle Hl].
    exists text. repeat split; try done.
    intros Hb. apply strip_blank in Hb. simpl in Hk. congruence.
  - intros (text & Hl & Hle & Hnb & Hr).
    exists (line r, text). split; [by rewrite Hr at 3|].
    apply filter_In. split.
    + apply list_elem_of_In, elem_of_enumerate. done.
    + simpl. destruct (truthy (strip text)) eqn:E; [done|].
      by apply strip_blank in E.
Qed.

End MergerFacts.

(** What [explain_file] returns is the merge of the source it read with the
    fact map and the hit counts it obtained. *)
Lemma explain_file_returns_merge
    (I : Executor.interp) (read_file : pystr -> outcome pystr)
    (ast_facts : pystr -> outcome (gmap Z (list pystr)))
    (path : pystr) (entry : option pystr) (args : option (list pyarg))
    (kwargs : option (list (pystr * pyarg))) (p p' : Executor.process)
    (recs : list Merger.record) (out : pystr) :
  Merger.explain_file I read_file ast_facts path entry args kwargs p
    = (Returns (recs, out), p') ->
  exists src fmap hits,
    read_file path = Returns src
    /\ ast_facts src = Returns fmap
    /\ Executor.run_with_trace I path entry args kwargs [] p
       = (Returns (hits, out), p')
    /\ recs = Merger.merge src fmap hits.
Proof.
  unfold Merger.explain_file. intros H.
  destruct (read_file path) as [src|] eqn:Hsrc; [|discriminate].
  destruct (ast_facts src) as [fmap|] eqn:Hf; [|discriminate].
  destruct (Executor.run_with_trace I path entry args kwargs [] p)
    as [[[hits out']|] p1] eqn:Hrun; [|discriminate].
  simplify_eq. by exists src, fmap, hits.
Qed.

(** The records of the merge against the lines that [str.splitlines] gives,
    N their number: a number has a record if and only if it lies in 1..N
    and the text [splitlines] gives for it is not whitespace-only; the
    numbers of the records are strictly ascending, so none has two records;
    and a record's code is that text with trailing whitespace removed.
    Whether these are the lines of the file is another matter, see below. *)
Lemma merge_covers_nonblank_lines
    (src : pystr) (fmap : gmap Z (list pystr)) (hits : gmap Z Z) :
  (forall i : Z,
      (exists r, r ∈ Merger.merge src fmap hits /\ Merger.line r = i)
      <-> (1 <= i <= Z.of_nat (length (splitlines src))
           /\ exists text, splitlines src !! Z.to_nat (i - 1) = Some text
                           /\ ~ whitespace_only text))
  /\ StronglySorted Z.lt (List.map Merger.line (Merger.merge src fmap hits))
  /\ NoDup (List.map Merger.line (Merger.merge src fmap hits))
  /\ (forall r text,
        r ∈ Merger.merge src fmap hits ->
        splitlines src !! Z.to_nat (Merger.line r - 1) = Some text ->
        Merger.code r = rstrip text).
Proof.
  assert (Hsorted : StronglySorted Z.lt
                      (List.map Merger.line (Merger.merge src fmap hits))).
  { rewrite merge_lines. apply kept_ascending. }
  repeat split.
  - destruct H as (r & Hr & <-).
    apply elem_of_merge in Hr as (text & Hl & Hle & _). lia.
  - destruct H as (r & Hr & <-).
    apply elem_of_merge in Hr as (text & Hl & Hle & _).
    apply lookup_lt_Some in Hl. lia.
  - destruct H as (r & Hr & <-).
    apply elem_of_merge in Hr as (text & Hl & Hle & Hnb & _). eauto.
  - intros ([Hlo Hhi] & text & Hl & Hnb).
    exists (Merger.line_record fmap hits i text). split; [|done].
    apply elem_of_merge. exists text. simpl. done.
  - exact Hsorted.
  - clear -Hsorted.
    induction Hsorted as [|i l _ IH Hall]; constructor; [|exact IH].
    intros Hin. rewrite Forall_forall in Hall.
    apply Hall in Hin. lia.
  - intros r text Hr Hl.
    apply elem_of_merge in Hr as (text' & Hl' & _ & _ & ->).
    simpl in *. congruence.
Qed.

(** *** The lines of [str.splitlines] and the lines of the file *)

Lemma is_linebreak_plain (c : N) :
  extra_boundary c = false ->
  is_linebreak c = ((c =? 10) || (c =? 13))%N.
Proof.
  unfold extra_boundary, is_linebreak. intros H.
  repeat (apply orb_false_iff in H as [H ?]).
  repeat match goal with
         | E : _ = false |- _ => rewrite E; clear E
         end.
  rewrite !orb_false_r.
  destruct (N.eqb_spec c 10) as [->|H10]; [reflexivity|].
  destruct (N.eqb_spec c 13) as [->|H13]; [reflexivity|].
  apply not_true_is_false. unfold in_range in *. intros Ht.
  apply andb_true_iff in Ht as [Hlo%N.leb_le Hhi%N.leb_le].
  apply andb_false_iff in H as [H%N.leb_gt|H%N.leb_gt]; lia.
Qed.

(** On a source that holds none of the extra boundaries, [str.splitlines]
    gives the physical lines. *)
Lemma splitlines_from_physical (n : nat) :
  forall (s cur : pystr),
    (length s <= n)%nat -> plain_line_ends s ->
    splitlines_from cur s = physical_lines_from cur s.
Proof.
  induction n as [|n IH]; intros [|c s] cur Hlen Hplain; simpl in *;
    try reflexivity; try lia.
  apply Forall_cons in Hplain as [Hc Hs].
  rewrite (is_linebreak_plain c Hc).
  destruct (N.eqb_spec c 10) as [->|H10]; simpl.
  - f_equal. destruct s as [|d s]; [reflexivity|]. apply IH; [|done].
    simpl in *. lia.
  - destruct (N.eqb_spec c 13) as [->|H13]; simpl.
    + f_equal. destruct s as [|d s]; [reflexivity|].
      destruct (d =? 10)%N.
      * apply Forall_cons in Hs as [_ Hs]. apply IH; [|done]. simpl in *. lia.
      * apply IH; [|done]. simpl in *. lia.
    + apply IH; [lia|done].
Qed.

Lemma splitlines_physical (src : pystr) :
  plain_line_ends src -> splitlines src = physical_lines src.
Proof. apply (splitlines_from_physical (length src)). lia. Qed.

(** C1 fails on the code. The source "x = 1\n\f\ny = 2\n" has three
    physical lines; the second holds a form feed only and is blank, the
    third is the assignment [y = 2], which [ast] reports on line 3. For
    this file [explain_file] returns two records, numbered 1 and 4: the
    non-blank line 3 has no record, a record carries the number 4, beyond
    the three lines of the file, and the fact of line 3 is lost, its code
    carrying the placeholder instead. Line 135 numbers the lines with
    [str.splitlines], which also breaks a line at a form feed, while the
    fact map and the hit counts it is merged with are keyed by physical
    line. *)
Theorem form_feed_line_shifts_the_records :
  physical_lines Sample.form_feed_src = [lit "x = 1"; [12%N]; lit "y = 2"]
  /\ whitespace_only [12%N]
  /\ ~ whitespace_only (lit "y = 2")
  /\ Facts.facts_of_tree Sample.form_feed_tree !! 3
     = Some [lit "assign: y = 2"]
  /\ fst (Merger.explain_file (Demo.python false)
            (fun _ => Returns Sample.form_feed_src)
            (Facts.ast_facts (fun _ => Returns Sample.form_feed_tree))
            (lit "a.py") None None None Demo.p0)
     = Returns
         ([ {| Merger.line := 1; Merger.code := lit "x = 1";
               Merger.facts := [lit "assign: x = 1"] |};
            {| Merger.line := 4; Merger.code := lit "y = 2";
               Merger.facts := [Merger.placeholder] |} ],
          []).
Proof.
  split; [reflexivity|].
  split; [by repeat constructor|].
  split; [intros H; inversion H; discriminate|].
  split; [vm_compute; reflexivity|].
  vm_compute. reflexivity.
Qed.





(** ** The instrumented call *)

Section ExecutorFacts.
Import Executor.

Variable I : interp.

(** The [finally] clause is the last thing done to the process: whatever
    the [try] block did, the two names are bound to the saved objects. *)
Lemma run_with_trace_finally path entry args kwargs stdin_data p globs p1 :
  run_path I path p = (Returns globs, p1) ->
  exists c st,
    try_block I globs entry (default [] args) (default [] kwargs)
      (time_sleep p1)
      {| proc := p1; fake_stdin := StringIO_new stdin_data;
         out_buf := StringIO_new []; counts := [] |} = (c, st)
    /\ snd (run_with_trace I path entry args kwargs stdin_data p)
       = set_sleep (time_sleep p1) (set_input (builtins_input p1) (proc st))
    /\ fst (run_with_trace I path entry args kwargs stdin_data p)
       = match c with
         | Exception e => Raises e
         | Return_value r => Returns r
         | Falls_through =>
             Returns (extract_counts (counts st) path, getvalue (out_buf st))
         end.
Proof.
  intros Hload. unfold run_with_trace. rewrite Hload.
  destruct (try_block _ _ _ _ _ _ _) as [c st] eqn:E.
  exists c, st. split; [reflexivity|]. destruct c; done.
Qed.

(** The [try] block of an entry that is not set, missing or not callable
    returns the empty pair. *)
Lemma try_block_not_callable globs entry args kwargs orig st :
  out_buf st = StringIO_new [] ->
  entry_is_set entry = false \/ callable (globs !! default [] entry) = false ->
  fst (try_block I globs entry args kwargs orig st) = Return_value (∅, []).
Proof.
  intros Hout H. unfold try_block.
  destruct (entry_is_set entry) eqn:Hset.
  - destruct H as [H|H]; [done|]. rewrite H. reflexivity.
  - simpl. rewrite Hout. reflexivity.
Qed.

End ExecutorFacts.

(** C3: when the module loads and the entry name is absent from its
    namespace or bound to a value that is not callable, [run_with_trace]
    returns the empty hit-count map and the empty output; it does not
    raise. *)
Theorem entry_not_invocable_returns_empty
    (I : Executor.interp) (path name : pystr)
    (args : option (list pyarg)) (kwargs : option (list (pystr * pyarg)))
    (stdin_data : pystr) (p p1 : Executor.process)
    (globs : gmap pystr Executor.nsvalue) :
  Executor.run_path I path p = (Returns globs, p1) ->
  (globs !! name = None \/ exists v, globs !! name = Some (Executor.Plain v)) ->
  fst (Executor.run_with_trace I path (Some name) args kwargs stdin_data p)
  = Returns (∅, []).
Proof.
  intros Hload Hname.
  destruct (run_with_trace_finally I path (Some name) args kwargs stdin_data
              p globs p1 Hload) as (c & st & Htry & _ & ->).
  apply (f_equal fst) in Htry.
  rewrite try_block_not_callable in Htry; simpl in Htry.
  - by subst c.
  - reflexivity.
  - right. simpl. destruct Hname as [H|[v H]]; rewrite H; reflexivity.
Qed.

(** C6, as stated, fails: the values restored are those saved at lines
    87-88, after the module has been loaded, not those from before the
    call. A call on a file whose top-level code rebinds [builtins.input],
    with no entry, returns the empty pair and leaves [builtins.input] bound
    to the function of the file, not to the interpreter's [input] it was
    bound to before the call. *)
Lemma input_rebound_at_load_is_not_undone :
  Executor.run_with_trace Demo.rebinding_python (lit "a.py") None None None
    [] Demo.p0
  = (Returns (∅, []), Executor.set_input (Executor.other_input 9) Demo.p0)
  /\ Executor.builtins_input Demo.p0 = Executor.builtin_input
  /\ Executor.builtins_input
       (snd (Executor.run_with_trace Demo.rebinding_python (lit "a.py")
               None None None [] Demo.p0))
     <> Executor.builtins_input Demo.p0.
Proof.
  split; [vm_compute; reflexivity|]. split; [reflexivity|].
  vm_compute. discriminate.
Qed.

(** C6, amended: once the module is loaded and the stubs are installed, on
    every way out of [run_with_trace] (a returned pair or a raised
    exception, whatever the entry routine did, the two names included)
    [builtins.input] and [time.sleep] are bound to the objects they were
    bound to when the stubs were installed, that is after the module was
    loaded; these are the bindings from before the call whenever loading
    the module did not rebind them. *)
Theorem stubs_restored_on_every_exit
    (I : Executor.interp) (path : pystr) (entry : option pystr)
    (args : option (list pyarg)) (kwargs : option (list (pystr * pyarg)))
    (stdin_data : pystr) (p p1 p' : Executor.process)
    (globs : gmap pystr Executor.nsvalue)
    (r : outcome (gmap Z Z * pystr)) :
  Executor.run_path I path p = (Returns globs, p1) ->
  Executor.run_with_trace I path entry args kwargs stdin_data p = (r, p') ->
  (Executor.builtins_input p' = Executor.builtins_input p1
   /\ Executor.time_sleep p' = Executor.time_sleep p1)
  /\ (Executor.builtins_input p1 = Executor.builtins_input p ->
      Executor.time_sleep p1 = Executor.time_sleep p ->
      Executor.builtins_input p' = Executor.builtins_input p
      /\ Executor.time_sleep p' = Executor.time_sleep p).
Proof.
  intros Hload Hrun.
  destruct (run_with_trace_finally I path entry args kwargs stdin_data
              p globs p1 Hload) as (c & st & _ & Hp & _).
  rewrite Hrun in Hp. simpl in Hp. subst p'. simpl.
  split; [done|]. intros <- <-. done.
Qed.

Lemma entry_not_invocable_returns_empty_witness :
  fst (Executor.run_with_trace (Demo.python false) (lit "a.py")
         (Some (lit "n")) None None [] Demo.p0)
  = Returns (∅, []).
Proof.
  apply (entry_not_invocable_returns_empty (Demo.python false) (lit "a.py")
           (lit "n") None None [] Demo.p0 Demo.p0 Demo.globs).
  - reflexivity.
  - right. exists (AInt 3). vm_compute. reflexivity.
Defined.

Lemma stubs_restored_on_every_exit_witness :
  (Executor.builtins_input
     (snd (Executor.run_with_trace (Demo.python true) (lit "a.py")
             (Some (lit "g")) None None [] Demo.p0))
   = Executor.builtins_input Demo.p0
   /\ Executor.time_sleep
        (snd (Executor.run_with_trace (Demo.python true) (lit "a.py")
                (Some (lit "g")) None None [] Demo.p0))
      = Executor.time_sleep Demo.p0)
  /\ (Executor.builtins_input Demo.p0 = Executor.builtins_input Demo.p0 ->
      Executor.time_sleep Demo.p0 = Executor.time_sleep Demo.p0 ->
      Executor.builtins_input
        (snd (Executor.run_with_trace (Demo.python true) (lit "a.py")
                (Some (lit "g")) None None [] Demo.p0))
      = Executor.builtins_input Demo.p0
      /\ Executor.time_sleep
           (snd (Executor.run_with_trace (Demo.python true) (lit "a.py")
                   (Some (lit "g")) None None [] Demo.p0))
         = Executor.time_sleep Demo.p0).
Proof.
  apply (stubs_restored_on_every_exit (Demo.python true) (lit "a.py")
           (Some (lit "g")) None None [] Demo.p0 Demo.p0 _ Demo.globs
           (fst (Executor.run_with_trace (Demo.python true) (lit "a.py")
                   (Some (lit "g")) None None [] Demo.p0))).
  - reflexivity.
  - apply surjective_pairing.
Defined.

(** What the entry routine [g] of the demonstration does under the tracer:
    it raises, and the pause it asked for reached the interpreter's
    [time.sleep] as 0.01. *)
Example g_run :
  Executor.run_with_trace (Demo.python true) (lit "a.py") (Some (lit "g"))
    None None (lit "a" ++ [10%N] ++ lit "b" ++ [10%N]) Demo.p0
  = (Raises (OtherError (lit "boom")),
     {| Executor.builtins_input := Executor.builtin_input;
        Executor.time_sleep := Executor.builtin_sleep;
        Executor.slept := [AFloat ten_ms] |}).
Proof. vm_compute. reflexivity. Qed.

(** Where [contextlib] has no [redirect_stdin], as in CPython, a callable
    entry is never run: the [with] statement raises. *)
Example callable_entry_without_redirect_stdin :
  Executor.run_with_trace (Demo.python false) (lit "a.py") (Some (lit "f"))
    None None [] Demo.p0
  = (Raises AttributeError, Demo.p0).
Proof. vm_compute. reflexivity. Qed.

(** ** The filter of line 122 *)

Lemma startswith_spec (s p : pystr) :
  startswith s p = true <-> exists suffix, s = p ++ suffix.
Proof.
  revert s. induction p as [|a p IH]; intros [|b s]; simpl.
  - split; [intros _; by exists []|reflexivity].
  - split; [intros _; by exists (b :: s)|reflexivity].
  - split; [done|]. intros [? ?]; discriminate.
  - rewrite andb_true_iff, N.eqb_eq, IH. split.
    + intros [-> [suffix ->]]. eauto.
    + intros [suffix Hs]. simplify_eq. eauto.
Qed.

Lemma endswith_spec (s p : pystr) :
  endswith s p = true <-> exists prefix, s = prefix ++ p.
Proof.
  unfold endswith. rewrite startswith_spec. split.
  - intros [suffix Hs]. exists (rev suffix).
    apply (f_equal (@rev N)) in Hs.
    by rewrite rev_involutive, rev_app_distr, rev_involutive in Hs.
  - intros [prefix ->]. exists (rev prefix). apply rev_app_distr.
Qed.

Lemma extract_counts_origin results path ln h :
  Executor.extract_counts results path !! ln = Some h ->
  exists fname, endswith fname path = true /\ (fname, ln, h) ∈ results.
Proof.
  unfold Executor.extract_counts.
  assert (G : forall acc : gmap Z Z,
    foldl (fun counts '((fname, ln), hits) =>
             if endswith fname path then <[ln := hits]> counts else counts)
          acc results !! ln = Some h ->
    acc !! ln = Some h
    \/ exists fname, endswith fname path = true /\ (fname, ln, h) ∈ results).
  { induction results as [|[[fname l] hits] results IH]; intros acc; simpl.
    - by left.
    - intros H. apply IH in H as [H|(f & Hf & Hin)].
      + destruct (endswith fname path) eqn:E.
        * destruct (decide (l = ln)) as [->|Hne].
          -- rewrite lookup_insert_eq in H. simplify_eq.
             right. exists fname. split; [done|]. left.
          -- rewrite lookup_insert_ne in H by done. by left.
        * by left.
      + right. exists f. split; [done|]. by right. }
  intros H. apply G in H as [H|H]; [|done].
  by rewrite lookup_empty in H.
Qed.

Section CountsFacts.
Import Executor.

Variable I : interp.

(** A [return] inside the [try] block returns the empty map. *)
Lemma try_block_return_value globs entry args kwargs orig st r st' :
  try_block I globs entry args kwargs orig st = (Return_value r, st') ->
  fst r = ∅.
Proof.
  unfold try_block. destruct (entry_is_set entry).
  - destruct (callable (globs !! default [] entry)); simpl.
    + destruct (globs !! default [] entry) as [[v|body]|];
        [by intros [= <- _]| |by intros [= <- _]].
      destruct (traced_call _ _ _) as [[]]; discriminate.
    + by intros [= <- _].
  - by intros [= <- _].
Qed.

End CountsFacts.


(** X21: what the filter of line 122 does keep. Every entry of the returned
    hit-count map is the count the tracer holds for that line in a file
    whose name ends with the analysed path (the analysed file itself
    included); a line for which the tracer holds counts only in files whose
    names do not end with the path has no entry. *)
Theorem hit_counts_are_suffix_matches
    (I : Executor.interp) (path : pystr) (entry : option pystr)
    (args : option (list pyarg)) (kwargs : option (list (pystr * pyarg)))
    (stdin_data : pystr) (p p' : Executor.process)
    (counts : gmap Z Z) (out : pystr) :
  Executor.run_with_trace I path entry args kwargs stdin_data p
    = (Returns (counts, out), p') ->
  (forall ln h, counts !! ln = Some h ->
     exists prefix,
       (prefix ++ path, ln, h)
       ∈ tracer_results I path entry args kwargs stdin_data p)
  /\ (forall ln,
        (forall fname h,
           (fname, ln, h) ∈ tracer_results I path entry args kwargs stdin_data p ->
           endswith fname path = false) ->
        counts !! ln = None).
Proof.
  intros Hrun.
  assert (Hmain : forall ln h, counts !! ln = Some h ->
     exists fname, endswith fname path = true /\
       (fname, ln, h) ∈ tracer_results I path entry args kwargs stdin_data p).
  { intros ln h Hc. unfold tracer_results.
    destruct (Executor.run_path I path p) as [[globs|e] p1] eqn:Hload.
    - destruct (run_with_trace_finally I path entry args kwargs stdin_data
                  p globs p1 Hload) as (c & st & Htry & _ & Hr).
      rewrite Hrun in Hr. simpl in Hr. rewrite Htry. simpl.
      destruct c as [|r|e]; simplify_eq.
      + by apply extract_counts_origin.
      + apply try_block_return_value in Htry. simpl in Htry. subst counts.
        by rewrite lookup_empty in Hc.
    - unfold Executor.run_with_trace in Hrun. rewrite Hload in Hrun.
      discriminate. }
  split.
  - intros ln h Hc. destruct (Hmain ln h Hc) as (fname & Hf & Hin).
    apply endswith_spec in Hf as [prefix ->]. eauto.
  - intros ln Hnone. destruct (counts !! ln) as [h|] eqn:Hc; [|done].
    destruct (Hmain ln h Hc) as (fname & Hf & Hin).
    apply Hnone in Hin. congruence.
Qed.

Lemma hit_counts_are_suffix_matches_witness :
  (forall ln h, ({[ 2 := 1; 7 := 1 ]} : gmap Z Z) !! ln = Some h ->
     exists prefix,
       (prefix ++ lit "a.py", ln, h)
       ∈ tracer_results (Demo.python true) (lit "a.py") (Some (lit "f"))
           None None [] Demo.p0)
  /\ (forall ln,
        (forall fname h,
           (fname, ln, h) ∈ tracer_results (Demo.python true) (lit "a.py")
                              (Some (lit "f")) None None [] Demo.p0 ->
           endswith fname (lit "a.py") = false) ->
        ({[ 2 := 1; 7 := 1 ]} : gmap Z Z) !! ln = None).
Proof.
  apply (hit_counts_are_suffix_matches (Demo.python true) (lit "a.py")
           (Some (lit "f")) None None [] Demo.p0 Demo.p0
           {[ 2 := 1; 7 := 1 ]} []).
  vm_compute. reflexivity.
Defined.

(** ** The input stub *)

Section StubInputFacts.
Import Executor.

Lemma upto_newline_cases s :
  (no_newline s /\ upto_newline s = s)
  \/ exists l rest, s = l ++ 10%N :: rest /\ no_newline l
                    /\ upto_newline s = l ++ [10%N].
Proof.
  induction s as [|c s IH]; simpl.
  - left. split; [constructor|done].
  - destruct (c =? 10)%N eqn:Hc.
    + apply N.eqb_eq in Hc as ->. right. exists [], s. repeat split. constructor.
    + destruct IH as [[Hs ->]|(l & rest & -> & Hl & ->)].
      * left. split; [by constructor|done].
      * right. exists (c :: l), rest. repeat split. by constructor.
Qed.

Lemma lstrip_by_keeps p s :
  Forall (fun c => p c = false) s -> lstrip_by p s = s.
Proof. destruct 1 as [|c s Hc _]; simpl; [done|by rewrite Hc]. Qed.

Lemma no_newline_mem_char l :
  no_newline l -> Forall (fun c => mem_char [10%N] c = false) (rev l).
Proof.
  intros H. apply Forall_rev. eapply Forall_impl; [exact H|].
  cbv beta. intros c Hc. unfold mem_char. cbn [existsb].
  rewrite N.eqb_sym, Hc. reflexivity.
Qed.

(** [line.rstrip("\n")] on what [readline] gives: the one line feed at the
    end goes, nothing else. *)
Lemma rstrip_newline_terminated l :
  no_newline l -> rstrip_chars [10%N] (l ++ [10%N]) = l.
Proof.
  intros H. unfold rstrip_chars, rstrip_by. rewrite rev_app_distr. simpl.
  rewrite lstrip_by_keeps by by apply no_newline_mem_char.
  apply rev_involutive.
Qed.

Lemma rstrip_newline_free l :
  no_newline l -> rstrip_chars [10%N] l = l.
Proof.
  intros H. unfold rstrip_chars, rstrip_by.
  rewrite lstrip_by_keeps by by apply no_newline_mem_char.
  apply rev_involutive.
Qed.

Lemma buffer_lines_from_newline cur l rest :
  no_newline l ->
  buffer_lines_from cur (l ++ 10%N :: rest) = (rev cur ++ l) :: buffer_lines rest.
Proof.
  intros H. revert cur. induction H as [|c l Hc _ IH]; intros cur; simpl.
  - by rewrite app_nil_r.
  - rewrite Hc, IH. simpl. by rewrite <- app_assoc.
Qed.

Lemma buffer_lines_from_end cur l :
  no_newline l ->
  buffer_lines_from cur l = match rev cur ++ l with [] => [] | t => [t] end.
Proof.
  intros H. revert cur. induction H as [|c l Hc _ IH]; intros cur; simpl.
  - rewrite app_nil_r. destruct cur as [|a cur]; [done|].
    simpl. by destruct (rev cur ++ [a]) eqn:E; [destruct (rev cur)|].
  - rewrite Hc, IH. simpl. by rewrite <- app_assoc.
Qed.

(** One call of the stub on a buffer read up to [pre]: it returns the first
    remaining line and leaves the buffer read up to the next one. *)
Lemma stub_input_step (pre s : pystr) :
  exists r pre' s',
    stub_input {| buffer := pre ++ s; pos := length pre |}
    = (r, {| buffer := pre' ++ s'; pos := length pre' |})
    /\ forall k, nth k (buffer_lines s) []
                 = match k with O => r | S k' => nth k' (buffer_lines s') [] end.
Proof.
  unfold stub_input, readline. simpl. rewrite drop_app_length.
  destruct (upto_newline_cases s) as [[Hs ->]|(l & rest & -> & Hl & ->)].
  - destruct s as [|c s].
    + exists [], pre, []. simpl. rewrite Nat.add_0_r.
      split; [done|]. by intros [|[|k]].
    + exists (c :: s), (pre ++ c :: s), []. split.
      * cbn [truthy]. rewrite rstrip_newline_free by done.
        by rewrite app_nil_r, length_app.
      * unfold buffer_lines. rewrite buffer_lines_from_end by done.
        simpl. by intros [|[|k]].
  - exists l, (pre ++ l ++ [10%N]), rest. split.
    + replace (truthy (l ++ [10%N])) with true by by destruct l.
      rewrite rstrip_newline_terminated by done.
      rewrite !length_app. f_equal. f_equal.
      by rewrite <- !app_assoc.
    + unfold buffer_lines. rewrite buffer_lines_from_newline by done.
      simpl. by intros [|k].
Qed.

(** While the stub is what [builtins.input] is bound to, a call of [input]
    by the entry routine is a call of the stub on the call's buffer, whose
    two lines the tracer counts. *)
Lemma run_prog_input_through_stub I prompt k st :
  builtins_input (proc st) = stub_input_obj ->
  run_prog I (Input prompt k) st
  = run_prog I (k (Returns (fst (stub_input (fake_stdin st)))))
      (with_stdin (snd (stub_input (fake_stdin st)))
         (with_counts (count_lines (own_lines I [91; 92]) (counts st)) st)).
Proof.
  intros H. simpl. rewrite H. unfold traced_input. simpl.
  by destruct (stub_input (fake_stdin st)).
Qed.

End StubInputFacts.

(** C7: for every stdin buffer and every number of reads, the successive
    calls of the input stub on the buffer return its lines in order, each
    without its line feed, and the empty string from the first read after
    the last line on. *)
Theorem stub_input_returns_lines_in_order (stdin_data : pystr) (n : nat) :
  reads n (StringIO_new stdin_data)
  = List.map (fun k => nth k (buffer_lines stdin_data) []) (seq 0 n).
Proof.
  (* the same for a buffer already read up to any line boundary [pre] *)
  assert (G : forall (k : nat) (pre s : pystr),
    reads k {| buffer := pre ++ s; pos := length pre |}
    = List.map (fun j => nth j (buffer_lines s) []) (seq 0 k)).
  { intros k. induction k as [|k IH]; intros pre s; [reflexivity|].
    destruct (stub_input_step pre s) as (r & pre' & s' & Hstep & Hnth).
    cbn [reads]. rewrite Hstep, IH. simpl. rewrite (Hnth O). f_equal.
    rewrite <- seq_shift, List.map_map.
    apply List.map_ext. intros j. by rewrite (Hnth (S j)). }
  exact (G n [] stdin_data).
Qed.

(** The buffer "a\nb\n" reads as "a", "b" and then "". *)
Example stub_input_a_b :
  reads 4 (StringIO_new (lit "a" ++ [10%N] ++ lit "b" ++ [10%N]))
  = [lit "a"; lit "b"; []; []].
Proof. reflexivity. Qed.

(** ** The pause stub *)

Section FloatFacts.

Lemma SFcompare_swap (a b : SpecFloat.spec_float) :
  SpecFloat.SFcompare b a = option_map CompOpp (SpecFloat.SFcompare a b).
Proof.
  destruct a as [sa|sa| |sa ma ea], b as [sb|sb| |sb mb eb]; simpl;
    try reflexivity; try (destruct sa, sb; reflexivity);
    try (destruct sa; reflexivity); try (destruct sb; reflexivity).
  f_equal. destruct sa, sb; try reflexivity.
  - rewrite (Z.compare_antisym ea eb).
    destruct (ea ?= eb); simpl; try reflexivity.
    rewrite (Pos.compare_cont_antisym ma mb Eq). reflexivity.
  - rewrite (Z.compare_antisym ea eb).
    destruct (ea ?= eb); simpl; try reflexivity.
    rewrite (Pos.compare_cont_antisym ma mb Eq). reflexivity.
Qed.

(** Among numbers, "not less than" is "at least". *)
Lemma float_not_lt_le (a x : float) :
  PrimFloat.is_nan a = false ->
  PrimFloat.is_nan x = false ->
  PrimFloat.ltb a x = false ->
  PrimFloat.leb x a = true.
Proof.
  unfold PrimFloat.is_nan.
  rewrite !FloatAxioms.eqb_spec, FloatAxioms.ltb_spec, FloatAxioms.leb_spec.
  unfold SpecFloat.SFeqb, SpecFloat.SFltb, SpecFloat.SFleb.
  rewrite (SFcompare_swap (FloatOps.Prim2SF a) (FloatOps.Prim2SF x)).
  intros Ha Hx.
  destruct (SpecFloat.SFcompare (FloatOps.Prim2SF a) (FloatOps.Prim2SF x))
    as [[]|] eqn:E; simpl; try done.
  destruct (FloatOps.Prim2SF a), (FloatOps.Prim2SF x); simpl in *; done.
Qed.

End FloatFacts.

(** C8: whatever is asked of the pause stub, and whatever function was
    saved as the original sleep, the stub either raises because [float]
    refuses the argument, calling nothing, or makes exactly the call of the
    original sleep with the smaller of the request and 0.01; that duration
    is never more than 0.01 seconds, and for every request that is a number
    it is at most 0.01 seconds. *)
Theorem fast_sleep_passes_at_most_ten_ms
    (I : Executor.interp)
    (original_sleep : pyarg -> Executor.process
                      -> outcome unit * Executor.process)
    (s : pyarg) (p : Executor.process) :
  match py_float (Executor.float_of_str I) s with
  | Raises e => Executor.fast_sleep I original_sleep s p = (Raises e, p)
  | Returns x =>
      exists d : float,
        Executor.fast_sleep I original_sleep s p = original_sleep (AFloat d) p
        /\ d = py_min x ten_ms
        /\ PrimFloat.ltb ten_ms d = false
        /\ (PrimFloat.is_nan x = false -> PrimFloat.leb d ten_ms = true)
  end.
Proof.
  unfold Executor.fast_sleep.
  destruct (py_float (Executor.float_of_str I) s) as [x|e]; [|reflexivity].
  exists (py_min x ten_ms). split; [reflexivity|]. split; [reflexivity|].
  unfold py_min. destruct (PrimFloat.ltb ten_ms x) eqn:E.
  - split; [reflexivity|]. intros _. reflexivity.
  - split; [exact E|]. intros Hx.
    apply float_not_lt_le; [reflexivity|exact Hx|exact E].
Qed.

(** The stub bound to [time.sleep] by [run_with_trace] is [fast_sleep] over
    whatever was bound before. *)
Lemma call_sleep_fast_sleep (I : Executor.interp) (orig : Executor.sleep_obj)
    (s : pyarg) (p : Executor.process) :
  Executor.call_sleep I (Executor.fast_sleep_obj orig) s p
  = Executor.fast_sleep I (Executor.call_sleep I orig) s p.
Proof. reflexivity. Qed.

Lemma fast_sleep_passes_at_most_ten_ms_witness :
  match py_float (Executor.float_of_str (Demo.python true)) (AInt 5) with
  | Raises e =>
      Executor.fast_sleep (Demo.python true) Executor.real_sleep (AInt 5)
        Demo.p0 = (Raises e, Demo.p0)
  | Returns x =>
      exists d : float,
        Executor.fast_sleep (Demo.python true) Executor.real_sleep (AInt 5)
          Demo.p0 = Executor.real_sleep (AFloat d) Demo.p0
        /\ d = py_min x ten_ms
        /\ PrimFloat.ltb ten_ms d = false
        /\ (PrimFloat.is_nan x = false -> PrimFloat.leb d ten_ms = true)
  end.
Proof.
  exact (fast_sleep_passes_at_most_ten_ms (Demo.python true)
           Executor.real_sleep (AInt 5) Demo.p0).
Defined.

(** A pause of five seconds asked of the stub reaches the interpreter's
    [time.sleep] as 0.01; a request that is not a number is passed on as it
    is, and refused there. *)
Example fast_sleep_five_seconds :
  Executor.call_sleep (Demo.python true)
    (Executor.fast_sleep_obj Executor.builtin_sleep) (AInt 5) Demo.p0
  = (Returns tt,
     {| Executor.builtins_input := Executor.builtin_input;
        Executor.time_sleep := Executor.builtin_sleep;
        Executor.slept := [AFloat ten_ms] |})
  /\ fst (Executor.call_sleep (Demo.python true)
            (Executor.fast_sleep_obj Executor.builtin_sleep)
            (AFloat PrimFloat.nan) Demo.p0)
     = Raises ValueError.
Proof. split; vm_compute; reflexivity. Qed.

(** ** The backend call *)

Section RendererFacts.
Import Renderer.

Variable B : backend.

Lemma first_timeouts_0 input c : first_timeouts B input c 0.
Proof. intros j Hj. lia. Qed.

Lemma first_timeouts_1 input c :
  ollama_run B input (runs c) = Timed_out -> first_timeouts B input c 1.
Proof.
  intros H j Hj. replace j with O by lia. by rewrite Nat.add_0_r.
Qed.

Lemma first_timeouts_2 input c :
  ollama_run B input (runs c) = Timed_out ->
  ollama_run B input (S (runs c)) = Timed_out ->
  first_timeouts B input c 2.
Proof.
  intros H0 H1 j Hj. destruct j as [|[|j]]; [|by rewrite Nat.add_1_r|lia].
  by rewrite Nat.add_0_r.
Qed.

(** The records as [explain_with_llm] leaves them, whatever becomes of the
    call. *)
Lemma explain_with_llm_records recs c :
  snd (fst (explain_with_llm B recs c)) = List.map preflag recs.
Proof.
  unfold explain_with_llm.
  destruct (call_local_llm B _ c) as [[[raw|]|e] c']; simpl; try done.
  by destruct (json_loads B (clean raw)).
Qed.

(** The result of [explain_with_llm], by what the backend call gives. *)
Lemma explain_with_llm_result recs c :
  fst (fst (explain_with_llm B recs c))
  = match fst (call_local_llm B (sent_prompt B recs) c) with
    | Raises e => Raises e
    | Returns None => Raises AttributeError
    | Returns (Some raw) =>
        match json_loads B (clean raw) with
        | Some data => Returns data
        | None => Raises JSONDecodeError
        end
    end.
Proof.
  unfold explain_with_llm, sent_prompt.
  destruct (call_local_llm B _ c) as [[[raw|]|e] c']; simpl; try done.
  by destruct (json_loads B (clean raw)).
Qed.

Section Attempts.

Variables (prompt : pystr) (input : list Byte.byte).
Hypothesis Henc : encode_utf8 B prompt = Some input.

(** One pass of the loop, by how the run of the backend ends. *)
Lemma attempts_timed_out c a todo :
  ollama_run B input (runs c) = Timed_out ->
  attempts B prompt 2 (a :: todo) c
  = if a <? 2 then
      attempts B prompt 2 todo
        (print (lit "Attempt " ++ str_of_int (a + 1)
                ++ lit " failed due to timeout. Retrying...") (ran c))
    else
      (Raises (SystemExit (lit "Ollama command timed out after multiple attempts. Ensure the model is available and try again.")),
       ran c).
Proof. intros Hrun. cbn [attempts]. by rewrite Henc, Hrun. Qed.

Lemma attempts_completed c rc out err todo a :
  ollama_run B input (runs c) = Completed rc out err ->
  runs (snd (attempts B prompt 2 (a :: todo) c)) = S (runs c)
  /\ (if rc =? 0 then
        fst (attempts B prompt 2 (a :: todo) c)
        = match decode_utf8 B out with
          | Some t => Returns (Some t)
          | None => Raises UnicodeError
          end
      else
        fst (attempts B prompt 2 (a :: todo) c)
        = match decode_utf8 B err with
          | Some _ =>
              Raises (RuntimeError
                        (lit "Ollama command failed. Check the error above."))
          | None => Raises UnicodeError
          end).
Proof.
  intros Hrun. cbn [attempts]. rewrite Henc, Hrun.
  destruct (rc =? 0); cbn [negb].
  - by destruct (decode_utf8 B out).
  - by destruct (decode_utf8 B err).
Qed.

Lemma attempts_failed c e todo a :
  ollama_run B input (runs c) = Failed e ->
  runs (snd (attempts B prompt 2 (a :: todo) c)) = S (runs c)
  /\ fst (attempts B prompt 2 (a :: todo) c) = Raises e.
Proof. intros Hrun. cbn [attempts]. by rewrite Henc, Hrun. Qed.

End Attempts.

Lemma preflag_shape (it : Merger.record) :
  Merger.line (preflag it) = Merger.line it
  /\ Merger.code (preflag it) = Merger.code it
  /\ (Merger.facts (preflag it) = Merger.facts it
      \/ exists flags,
           Merger.facts (preflag it)
           = Merger.facts it ++ [lit "precheck_flags: " ++ flags]).
Proof.
  unfold preflag. destruct (truthy _); simpl; eauto.
Qed.

End RendererFacts.

(** C5: with the backend available and a prompt that encodes,
    [call_local_llm] runs the backend between one and three times; every
    run but the last timed out, so a run is repeated only after a timeout
    and at most twice; a third timeout raises [SystemExit]; a run that ends
    with a non-zero status raises at once ([RuntimeError], or the decoding
    error of its diagnostic text) and no further run is made; a run with
    status zero returns its decoded output. *)
Theorem call_local_llm_retry_policy
    (B : Renderer.backend) (prompt : pystr) (input : list Byte.byte)
    (c : Renderer.console) :
  Renderer.USE_OLLAMA B = true ->
  Renderer.encode_utf8 B prompt = Some input ->
  exists n : nat,
    Renderer.runs (snd (Renderer.call_local_llm B prompt c))
    = (Renderer.runs c + n)%nat
    /\ (1 <= n <= 3)%nat
    /\ first_timeouts B input c (n - 1)
    /\ match Renderer.ollama_run B input (Renderer.runs c + (n - 1)) with
       | Renderer.Timed_out =>
           n = 3%nat
           /\ exists msg,
                fst (Renderer.call_local_llm B prompt c)
                = Raises (SystemExit msg)
       | Renderer.Failed e =>
           fst (Renderer.call_local_llm B prompt c) = Raises e
       | Renderer.Completed returncode stdout stderr =>
           if returncode =? 0 then
             fst (Renderer.call_local_llm B prompt c)
             = match Renderer.decode_utf8 B stdout with
               | Some out => Returns (Some out)
               | None => Raises UnicodeError
               end
           else
             fst (Renderer.call_local_llm B prompt c)
             = match Renderer.decode_utf8 B stderr with
               | Some _ =>
                   Raises (RuntimeError
                             (lit "Ollama command failed. Check the error above."))
               | None => Raises UnicodeError
               end
       end.
Proof.
  intros Huse Henc. unfold Renderer.call_local_llm. rewrite Huse.
  change (Renderer.py_range (2 + 1)) with [0; 1; 2].
  pose proof (attempts_completed B prompt input Henc) as Hdone.
  pose proof (attempts_failed B prompt input Henc) as Hfail.
  pose proof (attempts_timed_out B prompt input Henc) as Htime.
  destruct (Renderer.ollama_run B input (Renderer.runs c))
    as [|rc0 out0 err0|e0] eqn:E0.
  - (* the first run timed out *)
    rewrite (Htime c 0 [1; 2] E0). change (0 <? 2) with true. cbv iota.
    set (c1 := Renderer.print _ (Renderer.ran c)).
    assert (Hc1 : Renderer.runs c1 = (Renderer.runs c + 1)%nat)
      by (subst c1; simpl; lia).
    assert (Hft1 : first_timeouts B input c 1) by by apply first_timeouts_1.
    destruct (Renderer.ollama_run B input (Renderer.runs c1))
      as [|rc1 out1 err1|e1] eqn:E1.
    + (* the second run timed out *)
      rewrite (Htime c1 1 [2] E1). change (1 <? 2) with true. cbv iota.
      set (c2 := Renderer.print _ (Renderer.ran c1)).
      assert (Hc2 : Renderer.runs c2 = (Renderer.runs c + 2)%nat)
        by (subst c2; simpl; lia).
      assert (Hft2 : first_timeouts B input c 2).
      { apply first_timeouts_2; [done|].
        by replace (S (Renderer.runs c)) with (Renderer.runs c1) by lia. }
      exists 3%nat. change (3 - 1)%nat with 2%nat. rewrite <- Hc2.
      destruct (Renderer.ollama_run B input (Renderer.runs c2))
        as [|rc2 out2 err2|e2] eqn:E2.
      * rewrite (Htime c2 2 [] E2). change (2 <? 2) with false. cbv iota.
        simpl. repeat split; try lia; try done. eauto.
      * destruct (Hdone c2 rc2 out2 err2 [] 2 E2) as [Hr Hres].
        rewrite Hr. repeat split; try lia; try done.
      * destruct (Hfail c2 e2 [] 2 E2) as [Hr Hres].
        rewrite Hr. repeat split; try lia; try done.
    + destruct (Hdone c1 rc1 out1 err1 [2] 1 E1) as [Hr Hres].
      exists 2%nat. change (2 - 1)%nat with 1%nat. rewrite <- Hc1, E1, Hr.
      repeat split; try lia; try done.
    + destruct (Hfail c1 e1 [2] 1 E1) as [Hr Hres].
      exists 2%nat. change (2 - 1)%nat with 1%nat. rewrite <- Hc1, E1, Hr.
      repeat split; try lia; try done.
  - destruct (Hdone c rc0 out0 err0 [1; 2] 0 E0) as [Hr Hres].
    exists 1%nat. change (1 - 1)%nat with 0%nat. rewrite Nat.add_0_r, E0, Hr.
    repeat split; try lia; try done. apply first_timeouts_0.
  - destruct (Hfail c e0 [1; 2] 0 E0) as [Hr Hres].
    exists 1%nat. change (1 - 1)%nat with 0%nat. rewrite Nat.add_0_r, E0, Hr.
    repeat split; try lia; try done. apply first_timeouts_0.
Qed.

Lemma call_local_llm_retry_policy_witness :
  exists n : nat,
    Renderer.runs (snd (Renderer.call_local_llm Demo.failing_backend
                          (lit "hi") Demo.c0))
    = (Renderer.runs Demo.c0 + n)%nat
    /\ (1 <= n <= 3)%nat
    /\ first_timeouts Demo.failing_backend (Demo.bytes_of "hi") Demo.c0 (n - 1)
    /\ match Renderer.ollama_run Demo.failing_backend (Demo.bytes_of "hi")
               (Renderer.runs Demo.c0 + (n - 1)) with
       | Renderer.Timed_out =>
           n = 3%nat
           /\ exists msg,
                fst (Renderer.call_local_llm Demo.failing_backend (lit "hi")
                       Demo.c0)
                = Raises (SystemExit msg)
       | Renderer.Failed e =>
           fst (Renderer.call_local_llm Demo.failing_backend (lit "hi")
                  Demo.c0) = Raises e
       | Renderer.Completed returncode stdout stderr =>
           if returncode =? 0 then
             fst (Renderer.call_local_llm Demo.failing_backend (lit "hi")
                    Demo.c0)
             = match Renderer.decode_utf8 Demo.failing_backend stdout with
               | Some out => Returns (Some out)
               | None => Raises UnicodeError
               end
           else
             fst (Renderer.call_local_llm Demo.failing_backend (lit "hi")
                    Demo.c0)
             = match Renderer.decode_utf8 Demo.failing_backend stderr with
               | Some _ =>
                   Raises (RuntimeError
                             (lit "Ollama command failed. Check the error above."))
               | None => Raises UnicodeError
               end
       end.
Proof.
  apply (call_local_llm_retry_policy Demo.failing_backend (lit "hi")
           (Demo.bytes_of "hi") Demo.c0).
  - reflexivity.
  - reflexivity.
Defined.

(** Two timeouts and then an answer: three runs, and the answer is
    returned. A timeout and then exit status 1: two runs, and
    [RuntimeError]. *)
Example call_local_llm_runs :
  Renderer.call_local_llm Demo.backend (lit "hi") Demo.c0
  = (Returns (Some (lit "[]")),
     {| Renderer.runs := 3;
        Renderer.printed :=
          [lit "Attempt 1 failed due to timeout. Retrying...";
           lit "Attempt 2 failed due to timeout. Retrying..."] |})
  /\ Renderer.call_local_llm Demo.failing_backend (lit "hi") Demo.c0
     = (Raises (RuntimeError (lit "Ollama command failed. Check the error above.")),
        {| Renderer.runs := 2;
           Renderer.printed :=
             [lit "Attempt 1 failed due to timeout. Retrying...";
              lit "Error running Ollama: no model"] |}).
Proof. split; vm_compute; reflexivity. Qed.

(** ** The pre-flag pass and the response *)

(** C9, as stated, fails: the record that the merge makes of the one-line
    source [x = 1] holds the placeholder alone, and after [explain_with_llm]
    the same record holds a second string. *)
Lemma preflag_changes_a_merged_record :
  exists r r',
    Merger.merge (lit "x = 1") ∅ ∅ = [r]
    /\ snd (fst (Renderer.explain_with_llm Demo.backend
                   (Merger.merge (lit "x = 1") ∅ ∅) Demo.c0)) = [r']
    /\ Merger.facts r = [Merger.placeholder]
    /\ Merger.facts r'
       = [Merger.placeholder; lit "precheck_flags: never_executed_in_trace"]
    /\ r' <> r.
Proof.
  eexists _, _. split; [vm_compute; reflexivity|].
  split; [rewrite explain_with_llm_records; vm_compute; reflexivity|].
  split; [vm_compute; reflexivity|].
  split; [vm_compute; reflexivity|].
  intros H. apply (f_equal (fun r => length (Merger.facts r))) in H.
  vm_compute in H. discriminate.
Qed.

(** C9, amended: [explain_with_llm] leaves the caller's list with the same
    records in the same order; of each it keeps the line and the code, and
    it keeps the facts as they were or with one string added at the end,
    which starts with "precheck_flags: ". *)
Theorem preflag_only_appends_an_annotation
    (B : Renderer.backend) (recs : list Merger.record)
    (c : Renderer.console) :
  Forall2
    (fun r r' =>
       Merger.line r' = Merger.line r
       /\ Merger.code r' = Merger.code r
       /\ (Merger.facts r' = Merger.facts r
           \/ exists flags,
                Merger.facts r'
                = Merger.facts r ++ [lit "precheck_flags: " ++ flags]))
    recs (snd (fst (Renderer.explain_with_llm B recs c))).
Proof.
  rewrite explain_with_llm_records.
  induction recs as [|r recs IH]; simpl; constructor; [|exact IH].
  apply preflag_shape.
Qed.

Lemma clean_without_brace (raw : pystr) :
  find raw (lit "{") = -1 \/ rfind raw (lit "}") = -1 ->
  Renderer.clean raw = raw.
Proof.
  intros H. unfold Renderer.clean.
  destruct H as [-> | ->]; [done|].
  by rewrite andb_false_r.
Qed.

(** C10: when the backend's answer has no opening brace or no closing
    brace, [explain_with_llm] hands the whole answer, unchanged, to
    [json.loads]: what the parser makes of it is returned, and the call
    fails only if the parser refuses it. *)
Theorem brace_free_response_is_parsed_whole
    (B : Renderer.backend) (recs : list Merger.record)
    (c c' : Renderer.console) (raw : pystr) :
  Renderer.call_local_llm B (sent_prompt B recs) c = (Returns (Some raw), c') ->
  find raw (lit "{") = -1 \/ rfind raw (lit "}") = -1 ->
  Renderer.clean raw = raw
  /\ fst (fst (Renderer.explain_with_llm B recs c))
     = match Renderer.json_loads B raw with
       | Some data => Returns data
       | None => Raises JSONDecodeError
       end.
Proof.
  intros Hcall Hraw. split; [by apply clean_without_brace|].
  rewrite explain_with_llm_result, Hcall. simpl.
  by rewrite clean_without_brace.
Qed.

Lemma brace_free_response_is_parsed_whole_witness :
  Renderer.clean (lit "[]") = lit "[]"
  /\ fst (fst (Renderer.explain_with_llm Demo.backend
                 (Merger.merge (lit "x = 1") ∅ ∅) Demo.c0))
     = match Renderer.json_loads Demo.backend (lit "[]") with
       | Some data => Returns data
       | None => Raises JSONDecodeError
       end.
Proof.
  apply (brace_free_response_is_parsed_whole Demo.backend
           (Merger.merge (lit "x = 1") ∅ ∅) Demo.c0
           {| Renderer.runs := 3;
              Renderer.printed :=
                [lit "Attempt 1 failed due to timeout. Retrying...";
                 lit "Attempt 2 failed due to timeout. Retrying..."] |}
           (lit "[]")).
  - vm_compute. reflexivity.
  - left. vm_compute. reflexivity.
Defined.

(** The bare array is parsed and returned. *)
Example bare_array_is_returned :
  fst (fst (Renderer.explain_with_llm Demo.backend
              (Merger.merge (lit "x = 1") ∅ ∅) Demo.c0))
  = Returns (Renderer.JList []).
Proof. vm_compute. reflexivity. Qed.

(** * Further properties of the code *)

(** ** The records of the merge *)

Section MergeRecords.

Variables (src : pystr) (fmap : gmap Z (list pystr)) (hits : gmap Z Z).

Lemma line_record_facts i text :
  Merger.facts (Merger.line_record fmap hits i text)
  = match hits !! i with
    | Some h => default [] (fmap !! i) ++ [runtime_annotation h]
    | None =>
        if truthy (default [] (fmap !! i)) then default [] (fmap !! i)
        else [Merger.placeholder]
    end.
Proof.
  unfold Merger.line_record. cbn [Merger.facts].
  destruct (decide (i ∈ dom fmap)) as [Hf|Hf];
    destruct (decide (i ∈ dom hits)) as [Hh|Hh].
  - apply elem_of_dom in Hf as [l Hl], Hh as [h Hh].
    rewrite (lookup_total_correct _ _ _ Hl), (lookup_total_correct _ _ _ Hh).
    rewrite Hl, Hh. simpl. by destruct l.
  - apply elem_of_dom in Hf as [l Hl]. apply not_elem_of_dom in Hh.
    rewrite (lookup_total_correct _ _ _ Hl), Hl, Hh. simpl.
    by destruct l.
  - apply not_elem_of_dom in Hf. apply elem_of_dom in Hh as [h Hh].
    rewrite (lookup_total_correct _ _ _ Hh), Hf, Hh. reflexivity.
  - apply not_elem_of_dom in Hf, Hh. rewrite Hf, Hh. reflexivity.
Qed.

Lemma lstrip_by_split p (s : pystr) :
  exists pre, s = pre ++ lstrip_by p s /\ Forall (fun c => p c = true) pre.
Proof.
  induction s as [|c s (pre & Hs & Hpre)]; simpl.
  - exists []. split; [done|constructor].
  - destruct (p c) eqn:Hc.
    + exists (c :: pre). split; [by rewrite Hs at 1|by constructor].
    + exists []. split; [done|constructor].
Qed.

Lemma rstrip_by_split p (s : pystr) :
  exists ws, s = rstrip_by p s ++ ws /\ Forall (fun c => p c = true) ws.
Proof.
  unfold rstrip_by.
  destruct (lstrip_by_split p (rev s)) as (pre & Hs & Hpre).
  exists (rev pre). split; [|by apply Forall_rev].
  rewrite <- rev_app_distr, <- Hs. by rewrite rev_involutive.
Qed.


End MergeRecords.

(** X1: whatever the source, the fact map and the hit counts, no record of
    the merge has an empty facts list. *)
Theorem merge_facts_never_empty
    (src : pystr) (fmap : gmap Z (list pystr)) (hits : gmap Z Z) :
  Forall (fun r => Merger.facts r <> []) (Merger.merge src fmap hits).
Proof.
  apply Forall_forall. intros r Hr.
  apply elem_of_merge in Hr as (text & _ & _ & _ & ->).
  rewrite line_record_facts.
  destruct (hits !! Merger.line _) as [h|].
  - by destruct (default [] _).
  - by destruct (default [] _).
Qed.

(** X2: the facts of a record are read off the two maps at its line
    number: with a hit count, the fact-map entry (nothing when there is
    none) followed by the runtime annotation of that count as the last
    fact; without one, the fact-map entry unchanged when it is a non-empty
    list, and the placeholder alone when the entry is missing or is the
    empty list. *)
Theorem merge_facts_follow_the_maps
    (src : pystr) (fmap : gmap Z (list pystr)) (hits : gmap Z Z) :
  Forall
    (fun r =>
       match hits !! Merger.line r with
       | Some h =>
           Merger.facts r
           = default [] (fmap !! Merger.line r) ++ [runtime_annotation h]
       | None =>
           match fmap !! Merger.line r with
           | Some (f :: fs) => Merger.facts r = f :: fs
           | Some [] | None => Merger.facts r = [Merger.placeholder]
           end
       end)
    (Merger.merge src fmap hits).
Proof.
  apply Forall_forall. intros r Hr.
  apply elem_of_merge in Hr as (text & _ & _ & _ & Hrec).
  pose proof (line_record_facts fmap hits (Merger.line r) text) as Hf.
  rewrite <- Hrec in Hf. rewrite Hf.
  destruct (hits !! Merger.line r) as [h|]; [done|].
  by destruct (fmap !! Merger.line r) as [[|f fs]|].
Qed.


(** ** More on the instrumented call *)

Section TracerFacts.
Import Executor.

Variable I : interp.

Lemma count_line_counted key counts :
  counted_once_or_more counts -> counted_once_or_more (count_line key counts).
Proof.
  unfold counted_once_or_more.
  induction 1 as [|[k h] counts Hh Hrest IH]; simpl.
  - constructor; [simpl; lia|constructor].
  - simpl in Hh. destruct (decide (k = key)); constructor; simpl; try lia; done.
Qed.

Lemma call_input_counts f prompt st :
  counts (snd (call_input I f prompt st)) = counts st.
Proof.
  unfold call_input. destruct f as [| |id]; simpl.
  - destruct prompt; simpl;
      match goal with
      | |- context [truthy ?l] => by destruct (truthy l)
      end.
  - by destruct (stub_input (fake_stdin st)).
  - done.
Qed.

Lemma count_lines_counted keys counts :
  counted_once_or_more counts ->
  counted_once_or_more (count_lines keys counts).
Proof.
  unfold count_lines.
  revert counts. induction keys as [|key keys IH]; intros counts H; simpl.
  - done.
  - apply IH. by apply count_line_counted.
Qed.

Lemma traced_input_counted f prompt st :
  counted_once_or_more (counts st) ->
  counted_once_or_more (counts (snd (traced_input I f prompt st))).
Proof.
  intros H. unfold traced_input. rewrite call_input_counts. simpl.
  by apply count_lines_counted.
Qed.

Lemma traced_sleep_counted f s st :
  counted_once_or_more (counts st) ->
  counted_once_or_more (counts (snd (traced_sleep I f s st))).
Proof.
  intros H. unfold traced_sleep.
  destruct (call_sleep I f s (proc st)) as [r p']. simpl.
  by apply count_lines_counted.
Qed.

Lemma run_prog_counted p st :
  counted_once_or_more (counts st) ->
  counted_once_or_more (counts (snd (run_prog I p st))).
Proof.
  revert st.
  induction p as [|e|filename lineno k IH|prompt k IH|s k IH|f prompt k IH
                  |f s k IH|text k IH|f k IH|f k IH];
    intros st Hst; simpl; try done.
  - apply IH. simpl. by apply count_line_counted.
  - pose proof (traced_input_counted (builtins_input (proc st)) prompt st Hst)
      as Hc.
    destruct (traced_input I _ prompt st) as [r st']. by apply IH.
  - pose proof (traced_sleep_counted (time_sleep (proc st)) s st Hst) as Hc.
    destruct (traced_sleep I _ s st) as [r st']. by apply IH.
  - pose proof (traced_input_counted f prompt st Hst) as Hc.
    destruct (traced_input I f prompt st) as [r st']. by apply IH.
  - pose proof (traced_sleep_counted f s st Hst) as Hc.
    destruct (traced_sleep I f s st) as [r st']. by apply IH.
  - by apply IH.
  - by apply IH.
  - by apply IH.
Qed.

Lemma try_block_counted globs entry args kwargs orig st :
  counted_once_or_more (counts st) ->
  counted_once_or_more
    (counts (snd (try_block I globs entry args kwargs orig st))).
Proof.
  intros Hst. unfold try_block.
  destruct (entry_is_set entry); [|done].
  destruct (callable _); simpl; [|done].
  destruct (globs !! default [] entry) as [[v|body]|]; try done.
  unfold traced_call. destruct (has_redirect_stdin I); [|done].
  pose proof (run_prog_counted (body args kwargs)
                (with_proc
                   (set_sleep (fast_sleep_obj orig)
                      (proc (with_proc (set_input stub_input_obj (proc st)) st)))
                   (with_proc (set_input stub_input_obj (proc st)) st))
                Hst) as H.
  by destruct (run_prog I _ _) as [[[]|e] st'].
Qed.

End TracerFacts.

(** X4: every hit count that [run_with_trace] returns is at least 1: a line
    is in the map only if the tracer saw it run. *)
Theorem returned_hit_counts_are_positive
    (I : Executor.interp) (path : pystr) (entry : option pystr)
    (args : option (list pyarg)) (kwargs : option (list (pystr * pyarg)))
    (stdin_data : pystr) (p p' : Executor.process)
    (counts : gmap Z Z) (out : pystr) :
  Executor.run_with_trace I path entry args kwargs stdin_data p
    = (Returns (counts, out), p') ->
  map_Forall (fun _ h => 1 <= h) counts.
Proof.
  intros Hrun ln h Hc.
  destruct (Executor.run_path I path p) as [[globs|e] p1] eqn:Hload.
  - destruct (run_with_trace_finally I path entry args kwargs stdin_data
                p globs p1 Hload) as (c & st & Htry & _ & Hr).
    rewrite Hrun in Hr. simpl in Hr.
    destruct c as [|r|e]; simplify_eq.
    + apply extract_counts_origin in Hc as (fname & _ & Hin).
      pose proof (try_block_counted I globs entry (default [] args)
                    (default [] kwargs) (Executor.time_sleep p1)
                    {| Executor.proc := p1;
                       Executor.fake_stdin := StringIO_new stdin_data;
                       Executor.out_buf := StringIO_new [];
                       Executor.counts := [] |}) as Hpos.
      rewrite Htry in Hpos. simpl in Hpos.
      specialize (Hpos (List.Forall_nil _)).
      unfold counted_once_or_more in Hpos. rewrite Forall_forall in Hpos.
      apply (Hpos (fname, ln, h) Hin).
    + apply try_block_return_value in Htry. simpl in Htry. subst counts.
      by rewrite lookup_empty in Hc.
  - unfold Executor.run_with_trace in Hrun. rewrite Hload in Hrun.
    discriminate.
Qed.

Lemma returned_hit_counts_are_positive_witness :
  map_Forall (fun _ h => 1 <= h) ({[ 2 := 1; 7 := 1 ]} : gmap Z Z).
Proof.
  apply (returned_hit_counts_are_positive (Demo.python true) (lit "a.py")
           (Some (lit "f")) None None [] Demo.p0 Demo.p0
           {[ 2 := 1; 7 := 1 ]} []).
  vm_compute. reflexivity.
Defined.

(** X5: where [contextlib] has no attribute [redirect_stdin], a call with
    a callable entry never runs the entry: it raises [AttributeError] from
    the [with] statement and leaves the process as loading the module left
    it, the two names restored and no pause made. *)
Theorem callable_entry_is_never_run_without_redirect_stdin
    (I : Executor.interp) (path name : pystr)
    (args : option (list pyarg)) (kwargs : option (list (pystr * pyarg)))
    (stdin_data : pystr) (p p1 : Executor.process)
    (globs : gmap pystr Executor.nsvalue)
    (body : list pyarg -> list (pystr * pyarg) -> Executor.prog) :
  Executor.has_redirect_stdin I = false ->
  Executor.run_path I path p = (Returns globs, p1) ->
  name <> [] ->
  globs !! name = Some (Executor.Function body) ->
  Executor.run_with_trace I path (Some name) args kwargs stdin_data p
  = (Raises AttributeError, p1).
Proof.
  intros Hno Hload Hname Hbody.
  unfold Executor.run_with_trace. rewrite Hload.
  unfold Executor.try_block, Executor.traced_call. simpl.
  replace (truthy name) with true by by destruct name.
  rewrite Hbody, Hno. simpl. by destruct p1.
Qed.

Lemma callable_entry_is_never_run_without_redirect_stdin_witness :
  Executor.run_with_trace (Demo.python false) (lit "a.py") (Some (lit "g"))
    None None (lit "a") Demo.p0
  = (Raises AttributeError, Demo.p0).
Proof.
  apply (callable_entry_is_never_run_without_redirect_stdin
           (Demo.python false) (lit "a.py") (lit "g") None None (lit "a")
           Demo.p0 Demo.p0 Demo.globs Demo.g_body).
  - reflexivity.
  - reflexivity.
  - discriminate.
  - vm_compute. reflexivity.
Defined.

(** X6: with no entry (none given, or the empty name, as the command-line
    driver calls it) [explain_file] traces nothing: the captured output is
    empty and the records are the merge of the source with the fact map
    and an empty hit-count map, so no record carries a runtime
    annotation taken from a hit count. *)
Theorem explain_file_without_entry_has_no_hits
    (I : Executor.interp) (read_file : pystr -> outcome pystr)
    (ast_facts : pystr -> outcome (gmap Z (list pystr)))
    (path : pystr) (entry : option pystr) (args : option (list pyarg))
    (kwargs : option (list (pystr * pyarg))) (p p' : Executor.process)
    (recs : list Merger.record) (out : pystr) :
  Executor.entry_is_set entry = false ->
  Merger.explain_file I read_file ast_facts path entry args kwargs p
    = (Returns (recs, out), p') ->
  out = []
  /\ exists src fmap,
       read_file path = Returns src
       /\ ast_facts src = Returns fmap
       /\ recs = Merger.merge src fmap ∅
       /\ Forall
            (fun r =>
               Merger.facts r = [Merger.placeholder]
               \/ fmap !! Merger.line r = Some (Merger.facts r))
            recs.
Proof.
  intros Hentry Hrun.
  apply explain_file_returns_merge in Hrun
    as (src & fmap & hits & Hsrc & Hf & Hrun & ->).
  destruct (Executor.run_path I path p) as [[globs|e] p1] eqn:Hload.
  - destruct (run_with_trace_finally I path entry args kwargs []
                p globs p1 Hload) as (c & st & Htry & _ & Hr).
    rewrite Hrun in Hr. simpl in Hr.
    apply (f_equal fst) in Htry.
    rewrite try_block_not_callable in Htry
      by first [reflexivity | by left].
    simpl in Htry.
    subst c. simplify_eq. split; [done|].
    exists src, fmap. repeat split; try done.
    apply Forall_forall. intros r Hr.
    apply elem_of_merge in Hr as (text & _ & _ & _ & Hrec).
    pose proof (line_record_facts fmap ∅ (Merger.line r) text) as Hfacts.
    rewrite <- Hrec, lookup_empty in Hfacts. rewrite Hfacts.
    destruct (fmap !! Merger.line r) as [[|f fs]|]; simpl; eauto.
  - unfold Executor.run_with_trace in Hrun. rewrite Hload in Hrun.
    discriminate.
Qed.

(** ** The fact map *)

Section FactsOfTree.
Import Facts.

Lemma forest_size_app (a b : list node) :
  forest_size (a ++ b) = (forest_size a + forest_size b)%nat.
Proof. unfold forest_size. induction a; simpl; lia. Qed.

Lemma size_children (n : node) : size n = S (forest_size (children n)).
Proof. by destruct n. Qed.

Lemma forest_size_cons (n : node) (rest : list node) :
  forest_size (n :: rest)
  = S (forest_size (children n) + forest_size rest).
Proof. unfold forest_size. simpl. by rewrite size_children. Qed.

Lemma subnodes_children (n : node) :
  subnodes n = n :: flat_map subnodes (children n).
Proof. by destruct n. Qed.

(** With a pass for every node in the queue, the loop yields the nodes of
    the queued trees, each once. *)
Lemma walk_loop_enough (fuel : nat) (todo : list node) :
  (forest_size todo <= fuel)%nat ->
  walk_loop fuel todo ≡ₚ flat_map subnodes todo.
Proof.
  revert todo. induction fuel as [|fuel IH]; intros [|n rest] Hfuel;
    simpl; try done.
  - rewrite forest_size_cons in Hfuel. lia.
  - rewrite subnodes_children. simpl. constructor.
    rewrite IH.
    + rewrite flat_map_app. apply Permutation_app_comm.
    + rewrite forest_size_cons in Hfuel. rewrite forest_size_app. lia.
Qed.

(** More passes than nodes change nothing. *)
Lemma walk_loop_fuel (fuel fuel' : nat) (todo : list node) :
  (forest_size todo <= fuel)%nat -> (forest_size todo <= fuel')%nat ->
  walk_loop fuel todo = walk_loop fuel' todo.
Proof.
  revert fuel' todo. induction fuel as [|fuel IH];
    intros [|fuel'] [|n rest] H1 H2; simpl; try done;
    rewrite forest_size_cons in *; try lia.
  f_equal. apply IH; rewrite forest_size_app; lia.
Qed.

Lemma walk_subnodes (tree : node) : walk tree ≡ₚ subnodes tree.
Proof.
  unfold walk. rewrite walk_loop_enough.
  - simpl. by rewrite app_nil_r.
  - unfold forest_size. simpl. lia.
Qed.

(** The nodes at the head of the queue are yielded as they stand, before
    any of their children. *)
Lemma walk_loop_head (a b : list node) (fuel : nat) :
  (length a <= fuel)%nat ->
  walk_loop fuel (a ++ b)
  = a ++ walk_loop (fuel - length a) (b ++ flat_map children a).
Proof.
  revert b fuel. induction a as [|n a IH]; intros b fuel Hfuel; simpl.
  - by rewrite Nat.sub_0_r, app_nil_r.
  - destruct fuel as [|fuel]; [simpl in Hfuel; lia|]. simpl. f_equal.
    rewrite <- app_assoc, IH by (simpl in Hfuel; lia).
    by rewrite <- app_assoc.
Qed.

Lemma forest_size_children (l : list node) :
  forest_size l = (length l + forest_size (flat_map children l))%nat.
Proof.
  induction l as [|n l IH]; [done|].
  rewrite forest_size_cons. simpl. rewrite forest_size_app. lia.
Qed.

(** A queue with no more nodes than [d] has nothing [d] levels down. *)
Lemma generation_end (d : nat) :
  forall l : list node, (forest_size l <= d)%nat -> generation d l = [].
Proof.
  induction d as [|d IH]; intros l Hl; simpl.
  - destruct l as [|n l]; [done|]. rewrite forest_size_cons in Hl. lia.
  - apply IH. destruct l as [|n l]; [simpl; unfold forest_size; simpl; lia|].
    pose proof (forest_size_children (n :: l)) as H. cbn [length] in H. lia.
Qed.

(** The loop yields its queue, then the children of the queue, then their
    children, and so on as long as there are any. *)
Lemma walk_loop_generations (k : nat) :
  forall (fuel : nat) (todo : list node),
    (forest_size todo <= fuel)%nat ->
    generation k todo = [] ->
    walk_loop fuel todo
    = concat (List.map (fun d => generation d todo) (seq 0 k)).
Proof.
  induction k as [|k IH]; intros fuel todo Hfuel Hend.
  - simpl in Hend. subst todo. by destruct fuel.
  - cbn [seq List.map concat]. rewrite <- seq_shift, List.map_map.
    cbn [generation].
    pose proof (forest_size_children todo) as Hsize.
    pose proof (walk_loop_head todo [] fuel) as Hhead.
    rewrite app_nil_r in Hhead. rewrite Hhead by lia. f_equal.
    simpl. apply IH; [lia|exact Hend].
Qed.

Lemma visit_lookup (acc : gmap Z (list pystr)) (n : node) (ln : Z) :
  visit acc n !! ln
  = if bool_decide (lineno n = Some ln)
    then Some (default [] (acc !! ln) ++ facts_of_nodes [n])
    else acc !! ln.
Proof.
  unfold visit, facts_of_nodes. simpl.
  destruct (lineno n) as [l|]; [|by rewrite bool_decide_eq_false_2].
  destruct (decide (l = ln)) as [->|Hne].
  - rewrite bool_decide_eq_true_2 by done.
    destruct (fact_of (kind n)); rewrite lookup_insert_eq; [done|].
    by rewrite app_nil_r.
  - rewrite bool_decide_eq_false_2 by congruence.
    by destruct (fact_of (kind n)); rewrite lookup_insert_ne.
Qed.

Lemma foldl_visit_lookup (nodes : list node) (acc : gmap Z (list pystr)) ln :
  foldl visit acc nodes !! ln
  = match on_line ln nodes with
    | [] => acc !! ln
    | ns => Some (default [] (acc !! ln) ++ facts_of_nodes ns)
    end.
Proof.
  revert acc. induction nodes as [|n nodes IH]; intros acc; simpl; [done|].
  rewrite IH, visit_lookup. unfold on_line. simpl.
  destruct (bool_decide (lineno n = Some ln)); [|done].
  simpl. fold (on_line ln nodes).
  destruct (on_line ln nodes) as [|m ns]; [done|].
  f_equal. rewrite <- app_assoc. f_equal.
  unfold facts_of_nodes. simpl. by destruct (fact_of (kind n)).
Qed.


Lemma on_line_elem ln nodes n :
  n ∈ on_line ln nodes <-> n ∈ nodes /\ lineno n = Some ln.
Proof.
  unfold on_line. rewrite !list_elem_of_In, filter_In, bool_decide_eq_true.
  done.
Qed.

End FactsOfTree.

(** X7: the fact map of a tree has an entry exactly for the lines on which
    a node reached by the traversal starts, and the entry of a line lists
    the facts of the nodes of that line in the order of the traversal, one
    for each node of a reported class and none for the others, without
    removing repetitions. *)
Theorem facts_of_tree_entry (tree : Facts.node) (ln : Z) :
  Facts.facts_of_tree tree !! ln
  = match Facts.on_line ln (Facts.walk tree) with
    | [] => None
    | n :: ns => Some (Facts.facts_of_nodes (n :: ns))
    end.
Proof.
  unfold Facts.facts_of_tree. rewrite foldl_visit_lookup, lookup_empty.
  by destruct (Facts.on_line ln (Facts.walk tree)).
Qed.

(** X8: the traversal reaches every node of the tree, so the fact map
    loses and invents nothing: a line has an entry if and only if some node
    of the tree, at any depth, starts on it (be it of a class that gives no
    fact), and a string is among the facts of a line if and only if it is
    the fact of a node of the tree that starts on that line. *)
Theorem facts_of_tree_lines_and_facts (tree : Facts.node) (ln : Z) :
  (is_Some (Facts.facts_of_tree tree !! ln)
   <-> exists n, n ∈ Facts.subnodes tree /\ Facts.lineno n = Some ln)
  /\ (forall f,
        f ∈ default [] (Facts.facts_of_tree tree !! ln)
        <-> exists n, n ∈ Facts.subnodes tree /\ Facts.lineno n = Some ln
                      /\ Facts.fact_of (Facts.kind n) = Some f).
Proof.
  unfold Facts.facts_of_tree. rewrite foldl_visit_lookup, lookup_empty.
  assert (Hon : forall n, n ∈ Facts.on_line ln (Facts.walk tree)
                          <-> n ∈ Facts.subnodes tree
                              /\ Facts.lineno n = Some ln).
  { intros n. by rewrite on_line_elem, walk_subnodes. }
  split; [split|intros f; split].
  - intros Hsome.
    destruct (Facts.on_line ln (Facts.walk tree)) as [|n ns];
      [by destruct Hsome|].
    exists n. apply Hon. left.
  - intros (n & Hn). apply Hon in Hn.
    destruct (Facts.on_line ln (Facts.walk tree)); [by inversion Hn|done].
  - intros Hf.
    assert (Hf' : f ∈ Facts.facts_of_nodes
                        (Facts.on_line ln (Facts.walk tree))).
    { destruct (Facts.on_line ln (Facts.walk tree)); [by inversion Hf|done]. }
    unfold Facts.facts_of_nodes in Hf'.
    apply list_elem_of_omap in Hf' as (n & Hn & Hfact).
    apply Hon in Hn as [Hn Hln]. by exists n.
  - intros (n & Hn & Hln & Hfact).
    assert (Hin : n ∈ Facts.on_line ln (Facts.walk tree)) by by apply Hon.
    assert (Hf : f ∈ Facts.facts_of_nodes
                       (Facts.on_line ln (Facts.walk tree))).
    { unfold Facts.facts_of_nodes. apply list_elem_of_omap. by exists n. }
    destruct (Facts.on_line ln (Facts.walk tree)); [by inversion Hin|done].
Qed.

(** X9: the traversal is breadth-first, in full: it yields the root, then
    the children of the root from left to right, then the children of
    those, taken parent by parent in the order the parents were yielded,
    and so on level by level down to the leaves. So the facts of a line are
    ordered by the depth of their nodes first, and among nodes of one depth
    by their position from the left. *)
Theorem walk_goes_level_by_level (tree : Facts.node) :
  Facts.walk tree
  = concat (List.map (fun d => Facts.generation d [tree])
              (seq 0 (Facts.size tree))).
Proof.
  unfold Facts.walk. apply walk_loop_generations.
  - unfold Facts.forest_size. simpl. lia.
  - apply generation_end. unfold Facts.forest_size. simpl. lia.
Qed.

(** The order in which the nodes of the two assignments of the form-feed
    sample are visited: the module, the two statements, then the name and
    the constant of the first and those of the second, then the two
    [Store] contexts of the names. *)
Example walk_form_feed_tree :
  List.map (fun n => (Facts.lineno n, Z.of_nat (length (Facts.children n))))
    (Facts.walk Sample.form_feed_tree)
  = [(None, 2); (Some 1, 2); (Some 3, 2); (Some 1, 1); (Some 1, 0);
     (Some 3, 1); (Some 3, 0); (None, 0); (None, 0)].
Proof. reflexivity. Qed.



Lemma explain_file_without_entry_has_no_hits_witness :
  [] = ([] : pystr)
  /\ exists src fmap,
       Sample.read_file (lit "a.py") = Returns src
       /\ Facts.ast_facts Sample.parse src = Returns fmap
       /\ Merger.merge Sample.src (Facts.facts_of_tree Sample.tree) ∅
          = Merger.merge src fmap ∅
       /\ Forall
            (fun r =>
               Merger.facts r = [Merger.placeholder]
               \/ fmap !! Merger.line r = Some (Merger.facts r))
            (Merger.merge Sample.src (Facts.facts_of_tree Sample.tree) ∅).
Proof.
  apply (explain_file_without_entry_has_no_hits (Demo.python false)
           Sample.read_file (Facts.ast_facts Sample.parse) (lit "a.py")
           None None None Demo.p0 Demo.p0).
  - reflexivity.
  - reflexivity.
Defined.

(** The records of the sample, with no entry to trace. *)
Example explain_file_sample :
  fst (Merger.explain_file (Demo.python false) Sample.read_file
         (Facts.ast_facts Sample.parse) (lit "a.py") None None None Demo.p0)
  = Returns
      ([ {| Merger.line := 1; Merger.code := lit "def f(x):";
            Merger.facts := [lit "def: f(x)"] |};
         {| Merger.line := 2; Merger.code := lit "    y = g(x)";
            Merger.facts := [lit "assign: y = g(x)"; lit "call: g(...)"] |};
         {| Merger.line := 3; Merger.code := lit "    pass";
            Merger.facts := [Merger.placeholder] |} ],
       []).
Proof. vm_compute. reflexivity. Qed.

(** ** More on the backend call *)

(** X11: [call_local_llm] never leaves its loop without a result: it
    returns a text or raises, whatever the backend does; so
    [explain_with_llm] always has a text to clean. *)
Theorem call_local_llm_returns_text_or_raises
    (B : Renderer.backend) (prompt : pystr) (c : Renderer.console) :
  (exists raw, fst (Renderer.call_local_llm B prompt c) = Returns (Some raw))
  \/ (exists e, fst (Renderer.call_local_llm B prompt c) = Raises e).
Proof.
  unfold Renderer.call_local_llm.
  destruct (Renderer.USE_OLLAMA B); [|right; eauto].
  change (Renderer.py_range (2 + 1)) with [0; 1; 2].
  cbn [Renderer.attempts].
  destruct (Renderer.encode_utf8 B prompt) as [input|]; [|right; eauto].
  change (0 <? 2) with true. change (1 <? 2) with true.
  change (2 <? 2) with false. cbv iota.
  repeat match goal with
         | |- context [match Renderer.ollama_run B input ?n with _ => _ end] =>
             destruct (Renderer.ollama_run B input n) as [|rc out err|e]
         | |- context [negb (?rc =? 0)] => destruct (rc =? 0); cbn [negb]
         | |- context [Renderer.decode_utf8 B ?b] =>
             destruct (Renderer.decode_utf8 B b)
         end; simpl; eauto.
Qed.

(** Without a local runner [explain_with_llm] raises [SystemExit] with no
    run of the backend and nothing printed; the caller's records have been
    through the pre-flag pass all the same. *)
Lemma explain_with_llm_without_runner
    (B : Renderer.backend) (recs : list Merger.record)
    (c : Renderer.console) :
  Renderer.USE_OLLAMA B = false ->
  Renderer.explain_with_llm B recs c
  = (Raises (SystemExit (lit "No local LLM runner found (expected Ollama). Install and retry.")),
     List.map Renderer.preflag recs, c).
Proof.
  intros Hno. unfold Renderer.explain_with_llm, Renderer.call_local_llm.
  by rewrite Hno.
Qed.

Section FindFacts.

Variable c : N.

Lemma startswith_char (s : pystr) :
  startswith s [c] = match s with [] => false | b :: _ => (c =? b)%N end.
Proof. destruct s as [|b [|d s]]; simpl; [done| |]; apply andb_true_r. Qed.

Lemma find_first (pre post : pystr) (i : Z) :
  free_of c pre -> find_from i (pre ++ c :: post) [c] = i + Z.of_nat (length pre).
Proof.
  intros Hpre. revert i. induction Hpre as [|b pre Hb _ IH]; intros i.
  - cbn [app find_from]. rewrite startswith_char, N.eqb_refl. simpl. lia.
  - cbn [app find_from]. rewrite startswith_char, N.eqb_sym, Hb, IH.
    simpl. lia.
Qed.

Lemma find_none (s : pystr) (i : Z) : free_of c s -> find_from i s [c] = -1.
Proof.
  intros Hs. revert i. induction Hs as [|b s Hb _ IH]; intros i; [done|].
  cbn [find_from]. by rewrite startswith_char, N.eqb_sym, Hb, IH.
Qed.

Lemma rfind_none (s : pystr) (i : Z) : free_of c s -> rfind_from i s [c] = -1.
Proof.
  intros Hs. revert i. induction Hs as [|b s Hb _ IH]; intros i; [done|].
  cbn [rfind_from]. by rewrite IH, startswith_char, N.eqb_sym, Hb.
Qed.

Lemma rfind_last (pre post : pystr) (i : Z) :
  0 <= i -> free_of c post ->
  rfind_from i (pre ++ c :: post) [c] = i + Z.of_nat (length pre).
Proof.
  intros Hi Hpost. revert i Hi. induction pre as [|b pre IH]; intros i Hi.
  - cbn [app rfind_from]. rewrite rfind_none by done.
    rewrite startswith_char, N.eqb_refl. simpl. lia.
  - cbn [app rfind_from]. rewrite IH by lia.
    replace (i + 1 + Z.of_nat (length pre) =? -1) with false
      by (symmetry; apply Z.eqb_neq; lia).
    simpl. lia.
Qed.

Lemma split_first (s : pystr) :
  free_of c s \/ exists pre post, s = pre ++ c :: post /\ free_of c pre.
Proof.
  induction s as [|b s IH]; [left; constructor|].
  destruct (b =? c)%N eqn:Hb.
  - apply N.eqb_eq in Hb as ->. right. exists [], s. split; [done|constructor].
  - destruct IH as [Hs|(pre & post & -> & Hpre)].
    + left. by constructor.
    + right. exists (b :: pre), post. split; [done|by constructor].
Qed.

Lemma split_last (s : pystr) :
  free_of c s \/ exists pre post, s = pre ++ c :: post /\ free_of c post.
Proof.
  induction s as [|b s IH]; [left; constructor|].
  destruct IH as [Hs|(pre & post & -> & Hpost)].
  - destruct (b =? c)%N eqn:Hb.
    + apply N.eqb_eq in Hb as ->. right. by exists [], s.
    + left. by constructor.
  - right. by exists (b :: pre), post.
Qed.

End FindFacts.

(** ** The clean-up of the response *)

Section CleanFacts.

Lemma app_cons_longer {A} (l1 l2 r1 r2 : list A) (x y : A) :
  l1 ++ x :: r1 = l2 ++ y :: r2 ->
  (length l1 < length l2)%nat ->
  exists k, l2 = l1 ++ x :: k /\ r1 = k ++ y :: r2.
Proof.
  revert l2. induction l1 as [|a l1 IH]; intros [|b l2] Heq Hlen;
    simpl in *; try lia.
  - simplify_eq. by exists l2.
  - simplify_eq. destruct (IH l2) as (k & -> & ->); [done|lia|].
    by exists k.
Qed.

Lemma free_of_app c (a b : pystr) :
  free_of c (a ++ b) <-> free_of c a /\ free_of c b.
Proof. apply Forall_app. Qed.

(** Where the braces of a text are: one of them is missing, or the first
    opening brace comes before the last closing one, or after it. *)
Lemma brace_positions (raw : pystr) :
  (free_of open_brace raw \/ free_of close_brace raw)
  \/ (exists pre mid post,
        raw = pre ++ open_brace :: mid ++ close_brace :: post
        /\ free_of open_brace pre /\ free_of close_brace post)
  \/ (exists before between after,
        raw = before ++ close_brace :: between ++ open_brace :: after
        /\ free_of open_brace (before ++ close_brace :: between)
        /\ free_of close_brace (between ++ open_brace :: after)).
Proof.
  destruct (split_first open_brace raw) as [Ho|(pre & R & Hraw & Hpre)];
    [by left; left|].
  destruct (split_last close_brace raw) as [Hc|(B & P & Hraw' & HP)];
    [by left; right|].
  right.
  destruct (lt_eq_lt_dec (length pre) (length B)) as [[Hlt|Heq]|Hgt].
  - left. rewrite Hraw in Hraw'.
    destruct (app_cons_longer _ _ _ _ _ _ Hraw' Hlt) as (mid & -> & ->).
    exists pre, mid, P. by rewrite Hraw.
  - exfalso. rewrite Hraw in Hraw'.
    apply app_inj_1 in Hraw' as [_ Hraw']; [|done]. discriminate.
  - right. rewrite Hraw' in Hraw. symmetry in Hraw'.
    destruct (app_cons_longer _ _ _ _ _ _ Hraw Hgt) as (k & -> & ->).
    exists B, k, R. split; [by rewrite <- Hraw'|]. split; [done|done].
Qed.

Lemma slice_middle (a m b : pystr) :
  slice (a ++ m ++ b) (Z.of_nat (length a)) (Z.of_nat (length a + length m))
  = m.
Proof.
  unfold slice, clamp_index. rewrite !length_app.
  destruct (Z.ltb_spec (Z.of_nat (length a)) 0); [lia|].
  destruct (Z.ltb_spec (Z.of_nat (length a + length m)) 0); [lia|].
  rewrite !Z.min_l by lia.
  replace (Z.to_nat (Z.of_nat (length a))) with (length a) by lia.
  replace (Z.to_nat (Z.of_nat (length a + length m) - Z.of_nat (length a)))
    with (length m) by lia.
  by rewrite drop_app_length, take_app_length.
Qed.

Lemma slice_backwards (s : pystr) (start stop : Z) :
  0 <= stop <= start -> start <= Z.of_nat (length s) ->
  slice s start stop = [].
Proof.
  intros Hstop Hstart. unfold slice, clamp_index.
  destruct (Z.ltb_spec start 0); [lia|].
  destruct (Z.ltb_spec stop 0); [lia|].
  rewrite !Z.min_l by lia.
  by replace (Z.to_nat (stop - start)) with O by lia.
Qed.

Lemma clean_braced (pre mid post : pystr) :
  free_of open_brace pre -> free_of close_brace post ->
  Renderer.clean (pre ++ open_brace :: mid ++ close_brace :: post)
  = open_brace :: mid ++ [close_brace].
Proof.
  intros Hpre Hpost. unfold Renderer.clean, find, rfind.
  change (lit "{") with [open_brace]. change (lit "}") with [close_brace].
  rewrite find_first by done.
  replace (pre ++ open_brace :: mid ++ close_brace :: post)
    with ((pre ++ open_brace :: mid) ++ close_brace :: post)
    by by rewrite <- app_assoc.
  rewrite rfind_last by (done || lia).
  destruct (Z.eqb_spec (0 + Z.of_nat (length pre)) (-1)); [lia|].
  destruct (Z.eqb_spec (0 + Z.of_nat (length (pre ++ open_brace :: mid))) (-1));
    [lia|].
  cbn [negb andb].
  replace ((pre ++ open_brace :: mid) ++ close_brace :: post)
    with (pre ++ (open_brace :: mid ++ [close_brace]) ++ post)
    by (simpl; by rewrite <- !app_assoc).
  replace (0 + Z.of_nat (length pre)) with (Z.of_nat (length pre)) by lia.
  replace (0 + Z.of_nat (length (pre ++ open_brace :: mid)) + 1)
    with (Z.of_nat (length pre + length (open_brace :: mid ++ [close_brace]))).
  - apply slice_middle.
  - rewrite length_app. simpl. rewrite length_app. simpl. lia.
Qed.

Lemma clean_closing_first (before between after : pystr) :
  free_of open_brace (before ++ close_brace :: between) ->
  free_of close_brace (between ++ open_brace :: after) ->
  Renderer.clean (before ++ close_brace :: between ++ open_brace :: after) = [].
Proof.
  intros Hopen Hclose. unfold Renderer.clean, find, rfind.
  change (lit "{") with [open_brace]. change (lit "}") with [close_brace].
  rewrite rfind_last by (done || lia).
  replace (before ++ close_brace :: between ++ open_brace :: after)
    with ((before ++ close_brace :: between) ++ open_brace :: after)
    by by rewrite <- app_assoc.
  rewrite find_first by done.
  destruct (Z.eqb_spec
              (0 + Z.of_nat (length (before ++ close_brace :: between))) (-1));
    [lia|].
  destruct (Z.eqb_spec (0 + Z.of_nat (length before)) (-1)); [lia|].
  cbn [negb andb].
  apply slice_backwards; rewrite !length_app; simpl; lia.
Qed.

Lemma clean_missing_brace (raw : pystr) :
  free_of open_brace raw \/ free_of close_brace raw -> Renderer.clean raw = raw.
Proof.
  intros H. unfold Renderer.clean, find, rfind.
  change (lit "{") with [open_brace]. change (lit "}") with [close_brace].
  destruct H as [H|H].
  - by rewrite find_none.
  - rewrite (rfind_none close_brace) by done. by rewrite andb_false_r.
Qed.

End CleanFacts.

(** X12: what line 233 keeps of a response. If the response lacks an
    opening or a closing brace, all of it. If its first opening brace comes
    before its last closing brace, the text from the one to the other,
    both included, and nothing outside. If its last closing brace comes
    before its first opening brace, nothing: the empty text goes to the
    parser. *)
Theorem clean_keeps_the_braced_part (raw : pystr) :
  ((free_of open_brace raw \/ free_of close_brace raw)
   /\ Renderer.clean raw = raw)
  \/ (exists pre mid post,
        raw = pre ++ open_brace :: mid ++ close_brace :: post
        /\ free_of open_brace pre /\ free_of close_brace post
        /\ Renderer.clean raw = open_brace :: mid ++ [close_brace])
  \/ (exists before between after,
        raw = before ++ close_brace :: between ++ open_brace :: after
        /\ free_of open_brace (before ++ close_brace :: between)
        /\ free_of close_brace (between ++ open_brace :: after)
        /\ Renderer.clean raw = []).
Proof.
  destruct (brace_positions raw)
    as [H|[(pre & mid & post & -> & Hpre & Hpost)
          |(before & between & after & -> & Ho & Hc)]].
  - left. split; [done|]. by apply clean_missing_brace.
  - right; left. exists pre, mid, post. repeat split; try done.
    by apply clean_braced.
  - right; right. exists before, between, after. repeat split; try done.
    by apply clean_closing_first.
Qed.

(** X13: cleaning is idempotent: what line 233 keeps of a response, it
    keeps whole when applied again. *)
Theorem clean_is_idempotent (raw : pystr) :
  Renderer.clean (Renderer.clean raw) = Renderer.clean raw.
Proof.
  destruct (brace_positions raw)
    as [H|[(pre & mid & post & -> & Hpre & Hpost)
          |(before & between & after & -> & Ho & Hc)]].
  - by rewrite !(clean_missing_brace raw H).
  - rewrite clean_braced by done.
    apply (clean_braced [] mid []); constructor.
  - rewrite clean_closing_first by done. reflexivity.
Qed.

(** ** More on the pre-flag pass *)

Section PreflagFacts.
Import Renderer.

(** The pass appends the annotation of the list [ff], when [ff] is not
    empty. *)
Lemma preflag_precheck_flags (it : Merger.record) :
  preflag it
  = if truthy (precheck_flags it) then
      {| Merger.line := Merger.line it; Merger.code := Merger.code it;
         Merger.facts :=
           Merger.facts it ++ [precheck_annotation (precheck_flags it)] |}
    else it.
Proof. reflexivity. Qed.

Lemma existsb_snoc {A} (f : A -> bool) (l : list A) (x : A) :
  existsb f (l ++ [x]) = existsb f l || f x.
Proof. rewrite existsb_app. simpl. by rewrite orb_false_r. Qed.



Lemma contains_prefix (sub rest : pystr) : contains (sub ++ rest) sub = true.
Proof.
  unfold contains, find.
  assert (H : startswith (sub ++ rest) sub = true)
    by (apply startswith_spec; eauto).
  destruct sub as [|a sub]; [by destruct rest|].
  simpl in *. by rewrite H.
Qed.

End PreflagFacts.

(** X14: the pre-flag pass on the records of the merge. A record of a line
    with a hit count is never flagged as never executed: it is left as it
    is or gets one of the three annotations without that flag. A record of
    a line without a hit count, none of whose static facts holds the text
    "runtime: executed", gets an annotation that starts with
    "precheck_flags: never_executed_in_trace". *)
Theorem never_executed_flag_follows_hits
    (src : pystr) (fmap : gmap Z (list pystr)) (hits : gmap Z Z)
    (r : Merger.record) :
  r ∈ Merger.merge src fmap hits ->
  (forall h, hits !! Merger.line r = Some h ->
     Merger.facts (Renderer.preflag r) = Merger.facts r
     \/ exists ann,
          ann ∈ [lit "precheck_flags: risky_io_or_network";
                 lit "precheck_flags: dynamic_code_execution";
                 lit "precheck_flags: risky_io_or_network,dynamic_code_execution"]
          /\ Merger.facts (Renderer.preflag r) = Merger.facts r ++ [ann])
  /\ (hits !! Merger.line r = None ->
      (forall f, f ∈ default [] (fmap !! Merger.line r) ->
                 contains f (lit "runtime: executed") = false) ->
      exists rest,
        Merger.facts (Renderer.preflag r)
        = Merger.facts r
          ++ [lit "precheck_flags: never_executed_in_trace" ++ rest]).
Proof.
  intros Hr. apply elem_of_merge in Hr as (text & _ & _ & _ & Hrec).
  pose proof (line_record_facts fmap hits (Merger.line r) text) as Hfacts.
  rewrite <- Hrec in Hfacts.
  rewrite preflag_precheck_flags. unfold precheck_flags, Renderer.any_contains.
  split.
  - intros h Hh. rewrite Hh in Hfacts.
    assert (Hrun : existsb (fun f => contains f (lit "runtime: executed"))
                     (Merger.facts r) = true).
    { rewrite Hfacts, existsb_snoc.
      unfold runtime_annotation.
      change (lit "runtime: executed " ++ str_of_int h ++ lit "x")
        with (lit "runtime: executed"
              ++ (32%N :: str_of_int h ++ lit "x")).
      rewrite contains_prefix. apply orb_true_r. }
    rewrite Hrun. cbn [negb].
    destruct (existsb (fun f => contains f (lit "writes_to_network")
                                || contains f (lit "scrape_untrusted"))
                (Merger.facts r));
      destruct (existsb (fun f => contains f (lit "execute_code"))
                  (Merger.facts r)); cbn [app truthy Merger.facts].
    + right. eexists. split; [|reflexivity]. do 2 right. left.
    + right. eexists. split; [|reflexivity]. left.
    + right. eexists. split; [|reflexivity]. right. left.
    + by left.
  - intros Hh Hstatic. rewrite Hh in Hfacts.
    assert (Hrun : existsb (fun f => contains f (lit "runtime: executed"))
                     (Merger.facts r) = false).
    { rewrite Hfacts.
      destruct (fmap !! Merger.line r) as [[|f fs]|]; try reflexivity.
      apply not_true_is_false. intros Hex.
      apply existsb_exists in Hex as (g & Hg & Hc).
      apply list_elem_of_In in Hg. rewrite Hstatic in Hc by done.
      discriminate. }
    rewrite Hrun. cbn [negb].
    destruct (existsb (fun f => contains f (lit "writes_to_network")
                                || contains f (lit "scrape_untrusted"))
                (Merger.facts r));
      destruct (existsb (fun f => contains f (lit "execute_code"))
                  (Merger.facts r)); cbn [app truthy Merger.facts];
      eexists; reflexivity.
Qed.

Lemma never_executed_flag_follows_hits_witness :
  (forall h, ({[ 2 := 3 ]} : gmap Z Z) !! 3 = Some h ->
     [Merger.placeholder; lit "precheck_flags: never_executed_in_trace"]
     = [Merger.placeholder]
     \/ exists ann,
          ann ∈ [lit "precheck_flags: risky_io_or_network";
                 lit "precheck_flags: dynamic_code_execution";
                 lit "precheck_flags: risky_io_or_network,dynamic_code_execution"]
          /\ [Merger.placeholder; lit "precheck_flags: never_executed_in_trace"]
             = [Merger.placeholder] ++ [ann])
  /\ (({[ 2 := 3 ]} : gmap Z Z) !! 3 = None ->
      (forall f, f ∈ default [] (Facts.facts_of_tree Sample.tree !! 3) ->
                 contains f (lit "runtime: executed") = false) ->
      exists rest,
        [Merger.placeholder; lit "precheck_flags: never_executed_in_trace"]
        = [Merger.placeholder]
          ++ [lit "precheck_flags: never_executed_in_trace" ++ rest]).
Proof.
  apply (never_executed_flag_follows_hits Sample.src
           (Facts.facts_of_tree Sample.tree) {[ 2 := 3 ]}
           {| Merger.line := 3; Merger.code := lit "    pass";
              Merger.facts := [Merger.placeholder] |}).
  vm_compute. do 2 right. left.
Defined.


(** ** The user prompt *)

Section PromptFacts.
Import Json.

Lemma printable_app (a b : pystr) :
  printable (a ++ b) <-> printable a /\ printable b.
Proof. apply Forall_app. Qed.

Lemma hex_digit_printable (n : N) : (32 <=? hex_digit n)%N = true.
Proof.
  unfold hex_digit. apply N.leb_le. destruct (n <? 10)%N; lia.
Qed.

Lemma escape_printable (c : N) : printable (escape c).
Proof.
  unfold escape, printable.
  repeat match goal with
         | |- context [if ?b then _ else _] => destruct b eqn:?
         end;
    repeat constructor; try apply hex_digit_printable.
  match goal with
  | H : (c <? 32)%N = false |- _ => apply N.ltb_ge in H; apply N.leb_le; lia
  end.
Qed.

Lemma dumps_str_printable (s : pystr) : printable (dumps_str s).
Proof.
  unfold dumps_str. apply printable_app. split; [by repeat constructor|].
  apply printable_app. split; [|by repeat constructor].
  induction s as [|c s IH]; simpl; [constructor|].
  apply printable_app. split; [apply escape_printable|exact IH].
Qed.

Lemma join_printable (sep : pystr) (parts : list pystr) :
  printable sep -> Forall printable parts -> printable (join sep parts).
Proof.
  intros Hsep Hparts. induction Hparts as [|p parts Hp Hrest IH];
    [constructor|].
  simpl. destruct parts as [|q parts]; [done|].
  apply printable_app. split; [done|].
  apply printable_app. split; [done|exact IH].
Qed.

(** The digits of a number, as [pretty] writes them. *)
Lemma pretty_N_go_printable (x : N) (s : string) :
  printable (lit s) -> printable (lit (pretty_N_go x s)).
Proof.
  revert s. induction (N.lt_wf_0 x) as [x _ IH]; intros s Hs.
  destruct (decide (x = 0%N)) as [->|Hx]; [by rewrite pretty_N_go_0|].
  rewrite pretty_N_go_step by lia.
  apply IH; [apply N.div_lt; lia|].
  unfold lit. simpl. constructor; [|exact Hs].
  unfold pretty_N_char.
  assert (x `mod` 10 < 10)%N by (apply N.mod_lt; lia).
  destruct (x `mod` 10)%N as [|[[[|[]|]|[[]|[]|]|]|[[|[]|]|[[]|[]|]|]|]];
    try reflexivity; lia.
Qed.

Lemma str_of_int_printable (n : Z) : printable (str_of_int n).
Proof.
  unfold str_of_int, pretty, pretty_Z.
  assert (HN : forall x : N, printable (lit (pretty x))).
  { intros x. unfold pretty, pretty_N.
    destruct (decide (x = 0%N)); [by repeat constructor|].
    apply pretty_N_go_printable. constructor. }
  destruct n as [|x|x].
  - by repeat constructor.
  - apply (HN (Npos x)).
  - unfold lit. simpl. constructor; [reflexivity|]. apply (HN (Npos x)).
Qed.

Lemma dumps_block_printable (it : Merger.record) : printable (dumps_block it).
Proof.
  unfold dumps_block, dumps_list.
  repeat match goal with
         | |- printable (dumps_str _) => apply dumps_str_printable
         | |- printable (str_of_int _) => apply str_of_int_printable
         | |- printable (join _ _) =>
             apply join_printable; [by repeat constructor|]
         | |- printable (lit _) => by repeat constructor
         | |- printable (_ ++ _) => apply printable_app; split
         end.
  apply Forall_forall. intros t Ht.
  apply list_elem_of_In, in_map_iff in Ht as (f & <- & _).
  apply dumps_str_printable.
Qed.

Lemma printable_no_newline (s : pystr) : printable s -> no_newline s.
Proof.
  unfold printable, no_newline. intros H.
  eapply Forall_impl; [exact H|]. cbv beta. intros c Hc.
  apply N.leb_le in Hc. apply N.eqb_neq. lia.
Qed.

Lemma buffer_lines_newline (l rest : pystr) :
  no_newline l ->
  buffer_lines (l ++ [10%N] ++ rest) = l :: buffer_lines rest.
Proof. intros H. exact (buffer_lines_from_newline [] l rest H). Qed.

Lemma buffer_lines_join (blocks : list pystr) (rest : pystr) :
  Forall no_newline blocks -> blocks <> [] ->
  buffer_lines (join [10%N] blocks ++ [10%N] ++ rest)
  = blocks ++ buffer_lines rest.
Proof.
  intros Hall Hne. induction Hall as [|b blocks Hb Hrest IH]; [done|].
  destruct blocks as [|b' blocks].
  - by apply buffer_lines_newline.
  - change (join [10%N] (b :: b' :: blocks))
      with (b ++ [10%N] ++ join [10%N] (b' :: blocks)).
    rewrite <- !app_assoc.
    rewrite buffer_lines_newline by done.
    cbn [app]. f_equal. by apply IH.
Qed.

(** The lines of the user prompt, for a serializer that writes no line
    feed. *)
Lemma build_user_prompt_lines (B : Renderer.backend)
    (recs : list Merger.record) :
  (forall r, no_newline (Renderer.json_dumps B r)) ->
  buffer_lines (Renderer.build_user_prompt B recs)
  = lit "CODE FACTS:"
    :: match recs with
       | [] => [[]]
       | _ => List.map (Renderer.json_dumps B) recs
       end
    ++ [lit "Now produce the JSON as specified."].
Proof.
  intros Hdumps. unfold Renderer.build_user_prompt, Renderer.USER_TEMPLATE.
  unfold Renderer.newline.
  rewrite buffer_lines_newline by (vm_compute; repeat constructor).
  f_equal.
  assert (Hlast : buffer_lines
                    (lit "Now produce the JSON as specified." ++ [10%N])
                  = [lit "Now produce the JSON as specified."])
    by (vm_compute; reflexivity).
  destruct recs as [|r recs].
  - change (join [10%N] (List.map (Renderer.json_dumps B) [])) with ([] : pystr).
    rewrite (buffer_lines_newline []) by constructor. by rewrite Hlast.
  - rewrite buffer_lines_join.
    + by rewrite Hlast.
    + apply Forall_forall. intros t Ht.
      apply list_elem_of_In, in_map_iff in Ht as (f & <- & _). apply Hdumps.
    + done.
Qed.

End PromptFacts.

(** X17: with [json.dumps] as the serializer, the user prompt that
    [build_user_prompt] makes is, line by line: "CODE FACTS:", then one
    line for each record, in the order of the records (one empty line when
    there is no record), then "Now produce the JSON as specified.". *)
Theorem user_prompt_has_one_line_per_record
    (B : Renderer.backend) (recs : list Merger.record) :
  Renderer.json_dumps B = Json.dumps_block ->
  buffer_lines (Renderer.build_user_prompt B recs)
  = lit "CODE FACTS:"
    :: match recs with
       | [] => [[]]
       | _ => List.map Json.dumps_block recs
       end
    ++ [lit "Now produce the JSON as specified."].
Proof.
  intros HB. rewrite build_user_prompt_lines.
  - rewrite HB. reflexivity.
  - intros r. rewrite HB.
    apply printable_no_newline, dumps_block_printable.
Qed.

Lemma user_prompt_has_one_line_per_record_witness :
  buffer_lines
    (Renderer.build_user_prompt Sample.backend
       (Merger.merge Sample.src (Facts.facts_of_tree Sample.tree) ∅))
  = lit "CODE FACTS:"
    :: match Merger.merge Sample.src (Facts.facts_of_tree Sample.tree) ∅ with
       | [] => [[]]
       | _ =>
           List.map Json.dumps_block
             (Merger.merge Sample.src (Facts.facts_of_tree Sample.tree) ∅)
       end
    ++ [lit "Now produce the JSON as specified."].
Proof.
  apply (user_prompt_has_one_line_per_record Sample.backend
           (Merger.merge Sample.src (Facts.facts_of_tree Sample.tree) ∅)).
  reflexivity.
Defined.

(** The block of the second record of the sample. *)
Example dumps_block_sample :
  Json.dumps_block
    {| Merger.line := 2; Merger.code := lit "    y = g(x)";
       Merger.facts := [lit "assign: y = g(x)"; lit "call: g(...)"] |}
  = lit "{" ++ [34%N] ++ lit "line" ++ [34%N] ++ lit ": 2, "
    ++ [34%N] ++ lit "code" ++ [34%N] ++ lit ": " ++ [34%N]
    ++ lit "    y = g(x)" ++ [34%N] ++ lit ", "
    ++ [34%N] ++ lit "facts" ++ [34%N] ++ lit ": [" ++ [34%N]
    ++ lit "assign: y = g(x)" ++ [34%N] ++ lit ", " ++ [34%N]
    ++ lit "call: g(...)" ++ [34%N] ++ lit "]}".
Proof. vm_compute. reflexivity. Qed.

(** ** The lines of the analysed file, and the pauses of the entry *)

Section KeptCounts.
Import Executor.

Lemma extract_counts_kept results path fname ln h :
  (fname, ln, h) ∈ results -> endswith fname path = true ->
  is_Some (extract_counts results path !! ln).
Proof.
  unfold extract_counts. intros Hin Hend.
  assert (G : forall acc : gmap Z Z,
    is_Some (acc !! ln) \/ (fname, ln, h) ∈ results ->
    is_Some
      (foldl (fun counts '((fname, ln), hits) =>
                if endswith fname path then <[ln := hits]> counts else counts)
             acc results !! ln)).
  { clear Hin. induction results as [|[[f l] k] results IH]; intros acc H.
    - destruct H as [H|H]; [done|by inversion H].
    - simpl. apply IH. destruct H as [H|H].
      + left. destruct (endswith f path); [|done].
        destruct (decide (l = ln)) as [->|];
          [by rewrite lookup_insert_eq|by rewrite lookup_insert_ne].
      + apply elem_of_cons in H as [H|H]; [|by right].
        simplify_eq. left. rewrite Hend. by rewrite lookup_insert_eq. }
  apply G. by right.
Qed.

Variable I : interp.

Lemma try_block_return_counts globs entry args kwargs orig st r st' :
  try_block I globs entry args kwargs orig st = (Return_value r, st') ->
  counts st' = counts st.
Proof.
  unfold try_block. destruct (entry_is_set entry).
  - destruct (callable (globs !! default [] entry)); simpl.
    + destruct (globs !! default [] entry) as [[v|body]|];
        [by intros [= _ <-]| |by intros [= _ <-]].
      destruct (traced_call _ _ _) as [[]]; discriminate.
    + by intros [= _ <-].
  - by intros [= _ <-].
Qed.

Lemma call_input_proc f prompt st :
  proc (snd (call_input I f prompt st)) = proc st.
Proof.
  unfold call_input. destruct f as [| |id]; simpl.
  - destruct prompt; simpl;
      match goal with
      | |- context [truthy ?l] => by destruct (truthy l)
      end.
  - by destruct (stub_input (fake_stdin st)).
  - done.
Qed.

Lemma py_min_not_above (x : float) :
  PrimFloat.ltb ten_ms (py_min x ten_ms) = false.
Proof.
  unfold py_min. by destruct (PrimFloat.ltb ten_ms x) eqn:E.
Qed.

Lemma traced_input_proc f prompt st :
  proc (snd (traced_input I f prompt st)) = proc st.
Proof. unfold traced_input. by rewrite call_input_proc. Qed.

(** One call of the pause stub over the interpreter's [time.sleep]: at most
    one pause, a clamped one, and the name stays as it is. *)
Lemma traced_sleep_clamped s st :
  time_sleep (proc (snd (traced_sleep I (fast_sleep_obj builtin_sleep) s st)))
  = time_sleep (proc st)
  /\ exists pauses,
       slept (proc (snd (traced_sleep I (fast_sleep_obj builtin_sleep) s st)))
       = slept (proc st) ++ pauses
       /\ Forall clamped pauses.
Proof.
  unfold traced_sleep. cbn [call_sleep]. unfold fast_sleep.
  destruct (py_float (float_of_str I) s) as [x|e].
  - unfold real_sleep. set (d := py_min x ten_ms).
    assert (Hd : Forall clamped [AFloat d]).
    { constructor; [|constructor]. exists d. split; [done|].
      apply py_min_not_above. }
    destruct (PrimFloat.is_nan d || PrimFloat.ltb d 0); simpl;
      (split; [done|]); by exists [AFloat d].
  - simpl. split; [done|]. exists []. by rewrite app_nil_r.
Qed.

(** Under the pause stub over the interpreter's [time.sleep], an entry
    that pauses through the name only makes only clamped pauses. *)
Lemma run_prog_clamped p st :
  sleeps_by_name p ->
  time_sleep (proc st) = fast_sleep_obj builtin_sleep ->
  time_sleep (proc (snd (run_prog I p st))) = fast_sleep_obj builtin_sleep
  /\ exists pauses,
       slept (proc (snd (run_prog I p st))) = slept (proc st) ++ pauses
       /\ Forall clamped pauses.
Proof.
  revert st.
  induction p as [|e|filename lineno k IH|prompt k IH|s k IH|f prompt k IH
                  |f s k IH|text k IH|f k IH|f k IH];
    intros st Hkeep Hsleep; simpl in *.
  - split; [done|]. exists []. by rewrite app_nil_r.
  - split; [done|]. exists []. by rewrite app_nil_r.
  - destruct (IH (with_counts (count_line (filename, lineno) (counts st)) st))
      as (Hs & pauses & Hsl & Hcl); [done|done|]. eauto.
  - pose proof (traced_input_proc (builtins_input (proc st)) prompt st) as Hp.
    destruct (traced_input I _ prompt st) as [r st']. simpl in Hp.
    destruct (IH r st' (Hkeep r)) as (Hs & pauses & Hsl & Hcl);
      [by rewrite Hp|].
    rewrite Hp in Hsl. eauto.
  - rewrite Hsleep.
    destruct (traced_sleep_clamped s st) as (Hname & first & Hfirst & Hcl1).
    destruct (traced_sleep I _ s st) as [r st']. simpl in Hname, Hfirst.
    destruct (IH r st' (Hkeep r)) as (Hs & pauses & Hsl & Hcl);
      [by rewrite Hname|].
    split; [done|]. exists (first ++ pauses).
    split; [by rewrite Hsl, Hfirst, <- app_assoc|].
    by apply Forall_app.
  - pose proof (traced_input_proc f prompt st) as Hp.
    destruct (traced_input I f prompt st) as [r st']. simpl in Hp.
    destruct (IH r st' (Hkeep r)) as (Hs & pauses & Hsl & Hcl);
      [by rewrite Hp|].
    rewrite Hp in Hsl. eauto.
  - done.
  - destruct (IH (with_out (write (out_buf st) text) st))
      as (Hs & pauses & Hsl & Hcl); [done|done|]. eauto.
  - destruct (IH (with_proc (set_input f (proc st)) st))
      as (Hs & pauses & Hsl & Hcl); [done|done|]. eauto.
  - done.
Qed.

End KeptCounts.

Lemma splitlines_from_single_line (n : nat) :
  forall (s cur : pystr),
    (length s <= n)%nat -> single_line cur ->
    Forall single_line (splitlines_from cur s).
Proof.
  induction n as [|n IH]; intros [|c s] cur Hlen Hcur; simpl in *; try lia.
  - destruct cur; [constructor|].
    constructor; [by apply Forall_rev|constructor].
  - destruct cur; [constructor|].
    constructor; [by apply Forall_rev|constructor].
  - destruct (is_linebreak c) eqn:Hc.
    + constructor; [by apply Forall_rev|].
      destruct s as [|d s]; [constructor|].
      destruct ((c =? 13)%N && (d =? 10)%N);
        apply IH; simpl in *; try lia; constructor.
    + apply IH; [lia|by constructor].
Qed.

(** X18: the code of a record holds no line boundary of [str.splitlines]
    (line feed, carriage return, form feed and the others): a record is
    one line of text. *)
Theorem merge_code_is_a_single_line
    (src : pystr) (fmap : gmap Z (list pystr)) (hits : gmap Z Z) :
  Forall (fun r => single_line (Merger.code r)) (Merger.merge src fmap hits).
Proof.
  apply Forall_forall. intros r Hr.
  apply elem_of_merge in Hr as (text & Hl & _ & _ & ->).
  cbn [Merger.code Merger.line] in *.
  assert (Htext : single_line text).
  { pose proof (splitlines_from_single_line (length src) src []
                  (Nat.le_refl _) (List.Forall_nil _)) as Hall.
    rewrite Forall_forall in Hall. apply Hall.
    by eapply list_elem_of_lookup_2. }
  destruct (rstrip_by_split is_space text) as (ws & Hsplit & _).
  unfold single_line in Htext. rewrite Hsplit in Htext.
  by apply Forall_app in Htext as [Hcode _].
Qed.

(** X19: no traced line of the analysed file is dropped: if the tracer
    holds a count for a line in a file whose name ends with the path, the
    file loaded as [path] first of all, then the returned map has an entry
    for that line, which is the count of such a file. *)
Theorem traced_lines_of_the_file_have_an_entry
    (I : Executor.interp) (path : pystr) (entry : option pystr)
    (args : option (list pyarg)) (kwargs : option (list (pystr * pyarg)))
    (stdin_data : pystr) (p p' : Executor.process)
    (counts : gmap Z Z) (out : pystr) (fname : pystr) (ln h : Z) :
  Executor.run_with_trace I path entry args kwargs stdin_data p
    = (Returns (counts, out), p') ->
  (fname, ln, h) ∈ tracer_results I path entry args kwargs stdin_data p ->
  fname = path \/ endswith fname path = true ->
  exists fname' h',
    counts !! ln = Some h'
    /\ endswith fname' path = true
    /\ (fname', ln, h')
       ∈ tracer_results I path entry args kwargs stdin_data p.
Proof.
  intros Hrun Hin Hname.
  assert (Hend : endswith fname path = true).
  { destruct Hname as [->|H]; [|done]. apply endswith_spec. by exists []. }
  unfold tracer_results in *.
  destruct (Executor.run_path I path p) as [[globs|e] p1] eqn:Hload;
    [|by inversion Hin].
  destruct (run_with_trace_finally I path entry args kwargs stdin_data
              p globs p1 Hload) as (c & st & Htry & _ & Hr).
  rewrite Hrun in Hr. simpl in Hr. rewrite Htry in *. simpl in *.
  destruct c as [|r|e]; simplify_eq.
  - destruct (extract_counts_kept _ _ _ _ _ Hin Hend) as [h' Hh'].
    destruct (extract_counts_origin _ _ _ _ Hh') as (fname' & Hend' & Hin').
    by exists fname', h'.
  - apply try_block_return_counts in Htry. simpl in Htry.
    rewrite Htry in Hin. by inversion Hin.
Qed.

Lemma traced_lines_of_the_file_have_an_entry_witness :
  exists fname' h',
    ({[ 2 := 1; 7 := 1 ]} : gmap Z Z) !! 2 = Some h'
    /\ endswith fname' (lit "a.py") = true
    /\ (fname', 2, h')
       ∈ tracer_results (Demo.python true) (lit "a.py") (Some (lit "f"))
           None None [] Demo.p0.
Proof.
  apply (traced_lines_of_the_file_have_an_entry (Demo.python true)
           (lit "a.py") (Some (lit "f")) None None [] Demo.p0 Demo.p0
           {[ 2 := 1; 7 := 1 ]} [] (lit "a.py") 2 1).
  - vm_compute. reflexivity.
  - vm_compute. left.
  - by left.
Defined.

(** X20: when [time.sleep] is the interpreter's own once the module is
    loaded, and the entry routine pauses through the name [time.sleep]
    only (it neither rebinds the name nor calls a sleep function through a
    reference of its own), every pause that reaches the interpreter from
    the installation of the stubs to the end of [run_with_trace] is a
    float not above 0.01, however long the pauses the routine asks for.
    The pauses made while the module loads come before and are not
    bounded. *)
Theorem traced_entry_makes_only_clamped_pauses
    (I : Executor.interp) (path name : pystr)
    (args : option (list pyarg)) (kwargs : option (list (pystr * pyarg)))
    (stdin_data : pystr) (p p1 : Executor.process)
    (globs : gmap pystr Executor.nsvalue)
    (body : list pyarg -> list (pystr * pyarg) -> Executor.prog) :
  Executor.run_path I path p = (Returns globs, p1) ->
  Executor.time_sleep p1 = Executor.builtin_sleep ->
  globs !! name = Some (Executor.Function body) ->
  sleeps_by_name (body (default [] args) (default [] kwargs)) ->
  exists pauses,
    Executor.slept
      (snd (Executor.run_with_trace I path (Some name) args kwargs
              stdin_data p))
    = Executor.slept p1 ++ pauses
    /\ Forall clamped pauses.
Proof.
  intros Hload Hsleep Hbody Hkeep.
  destruct (run_with_trace_finally I path (Some name) args kwargs stdin_data
              p globs p1 Hload) as (c & st & Htry & -> & _).
  simpl. unfold Executor.try_block in Htry. simpl in Htry.
  destruct (truthy name).
  - rewrite Hbody in Htry. simpl in Htry.
    unfold Executor.traced_call in Htry.
    destruct (Executor.has_redirect_stdin I).
    + match type of Htry with
      | context [Executor.run_prog I ?b ?s] =>
          destruct (run_prog_clamped I b s Hkeep) as (_ & pauses & Hsl & Hcl);
            [by simpl; rewrite Hsleep|];
          destruct (Executor.run_prog I b s) as [[[]|e] st'] eqn:E
      end; simplify_eq; simpl in *; eauto.
    + simplify_eq. simpl. exists []. by rewrite app_nil_r.
  - simplify_eq. simpl. exists []. by rewrite app_nil_r.
Qed.

Lemma traced_entry_makes_only_clamped_pauses_witness :
  exists pauses,
    Executor.slept
      (snd (Executor.run_with_trace Sample.python (lit "a.py")
              (Some (lit "h")) None None [] Demo.p0))
    = Executor.slept Demo.p0 ++ pauses
    /\ Forall clamped pauses.
Proof.
  apply (traced_entry_makes_only_clamped_pauses Sample.python (lit "a.py")
           (lit "h") None None [] Demo.p0 Demo.p0
           {[ lit "h" := Executor.Function Sample.h_body ]} Sample.h_body).
  - reflexivity.
  - reflexivity.
  - vm_compute. reflexivity.
  - simpl. intros r r'. exact I.
Defined.

(** The two pauses of the sample, as they reach the interpreter. *)
Example h_run :
  Executor.slept
    (snd (Executor.run_with_trace Sample.python (lit "a.py") (Some (lit "h"))
            None None [] Demo.p0))
  = [AFloat ten_ms; AFloat 0x1p-10].
Proof. vm_compute. reflexivity. Qed.

(** A pause through a reference to the interpreter's function, as in a file
    that says [from time import sleep], is not clamped: the five seconds
    reach the interpreter. *)
Example saved_sleep_is_not_clamped :
  Executor.slept
    (snd (Executor.run_with_trace Sample.saved_sleep_python (lit "a.py")
            (Some (lit "h")) None None [] Demo.p0))
  = [AInt 5].
Proof. vm_compute. reflexivity. Qed.

(** The tracer follows the calls into the two stubs: the three reads and
    the pause of the entry [g] leave counts for lines 91, 92 and 96 of this
    file in its dict. *)
Example stub_lines_are_counted :
  tracer_results (Demo.python true) (lit "a.py") (Some (lit "g")) None None
    (lit "a" ++ [10%N] ++ lit "b" ++ [10%N]) Demo.p0
  = [(lit "explain_lines.py", 91, 3); (lit "explain_lines.py", 92, 3);
     (lit "explain_lines.py", 96, 1)].
Proof. vm_compute. reflexivity. Qed.

(** ** The lines of an ordinary source *)

(** X22: for a source text that holds none of the characters at which
    [str.splitlines] breaks a line although they end no line of a file
    (vertical tab, form feed, the three separators U+001C to U+001E, next
    line, and the line and paragraph separators), the records of the merge
    are exactly the non-blank physical lines: a number has a record if and
    only if it lies in 1..N, N the number of physical lines, and the
    physical line of that number is not whitespace-only; the numbers of
    the records are strictly ascending, so no line has two records; and a
    record's code is its physical line with trailing whitespace removed. *)
Theorem merge_covers_nonblank_physical_lines
    (src : pystr) (fmap : gmap Z (list pystr)) (hits : gmap Z Z) :
  plain_line_ends src ->
  (forall i : Z,
      (exists r, r ∈ Merger.merge src fmap hits /\ Merger.line r = i)
      <-> (1 <= i <= Z.of_nat (length (physical_lines src))
           /\ exists text, physical_lines src !! Z.to_nat (i - 1) = Some text
                           /\ ~ whitespace_only text))
  /\ StronglySorted Z.lt (List.map Merger.line (Merger.merge src fmap hits))
  /\ NoDup (List.map Merger.line (Merger.merge src fmap hits))
  /\ (forall r text,
        r ∈ Merger.merge src fmap hits ->
        physical_lines src !! Z.to_nat (Merger.line r - 1) = Some text ->
        Merger.code r = rstrip text).
Proof.
  intros Hplain. rewrite <- (splitlines_physical src Hplain).
  apply merge_covers_nonblank_lines.
Qed.

Lemma merge_covers_nonblank_physical_lines_witness :
  (forall i : Z,
      (exists r, r ∈ Merger.merge Sample.src
                       (Facts.facts_of_tree Sample.tree) ∅
                 /\ Merger.line r = i)
      <-> (1 <= i <= Z.of_nat (length (physical_lines Sample.src))
           /\ exists text,
                physical_lines Sample.src !! Z.to_nat (i - 1) = Some text
                /\ ~ whitespace_only text))
  /\ StronglySorted Z.lt
       (List.map Merger.line
          (Merger.merge Sample.src (Facts.facts_of_tree Sample.tree) ∅))
  /\ NoDup
       (List.map Merger.line
          (Merger.merge Sample.src (Facts.facts_of_tree Sample.tree) ∅))
  /\ (forall r text,
        r ∈ Merger.merge Sample.src (Facts.facts_of_tree Sample.tree) ∅ ->
        physical_lines Sample.src !! Z.to_nat (Merger.line r - 1) = Some text ->
        Merger.code r = rstrip text).
Proof.
  apply (merge_covers_nonblank_physical_lines Sample.src
           (Facts.facts_of_tree Sample.tree) ∅).
  vm_compute. repeat constructor.
Defined.
